(** * Job-status polling of the lip-sync client

    A shallow embedding of the polling code of the React client:
    - [pages/ProjectDetail.tsx] (the variant keeping its timer in a
      [useState] cell) and its later revision (the variant keeping it in a
      [useRef] cell): [pollForUpdates], the polling effect, [handleDelete];
    - [pages/Dashboard.tsx]: the polling effect over all unfinished projects;
    - [store/slices/projectSlice]: the reducers used by the pages;
    - [services/api]: the axios request and response interceptors.

    JavaScript strings are sequences of UTF-16 code units; React state cells
    are record fields written through setters whose calls are counted;
    timers, the console, [localStorage] and [window.location] are explicit
    parts of the state. *)

From Stdlib Require Import NArith List Ascii String Bool Lia.
From stdpp Require Import base option list gmap strings.
Import ListNotations.

Local Open Scope N_scope.

(** ** JavaScript strings, the progress pattern and [parseInt] *)

Module JS.

(** A string is its sequence of UTF-16 code units. *)
Definition jsstring := list N.

(** The code units of an ASCII literal. *)
Fixpoint lit (s : string) : jsstring :=
  match s with
  | EmptyString => []
  | String a r => N_of_ascii a :: lit r
  end.

(** [\d] without the unicode flag: the ten ASCII digits. *)
Definition isDigit (c : N) : bool := (48 <=? c) && (c <=? 57).

(** ECMAScript LineTerminator: LF, CR, LS, PS. *)
Definition isLineTerminator (c : N) : bool :=
  (c =? 10) || (c =? 13) || (c =? 8232) || (c =? 8233).

(** [.] without the [s] flag: any code unit but a line terminator. *)
Definition isDot (c : N) : bool := negb (isLineTerminator c).

(** [a || b] for an optional string [a] and a string [b]: an absent or
    empty [a] is falsy.  In the same way a condition [s && ...] on an
    optional string is written below as a match on [Some (c :: r)]. *)
Definition orElse (m : option jsstring) (d : jsstring) : jsstring :=
  match m with
  | Some (c :: r) => c :: r
  | _ => d
  end.

(** The rest of [s] after the literal [l], when [s] starts with it. *)
Fixpoint stripLiteral (l s : jsstring) : option jsstring :=
  match l with
  | [] => Some s
  | a :: l' =>
      match s with
      | [] => None
      | c :: s' => if a =? c then stripLiteral l' s' else None
      end
  end.

(** The longest prefix of [s] whose code units satisfy [p], and the rest: a
    greedy [+] or [*] over a one-character class. *)
Fixpoint span (p : N -> bool) (s : jsstring) : jsstring * jsstring :=
  match s with
  | [] => ([], [])
  | c :: s' =>
      if p c then let '(a, b) := span p s' in (c :: a, b) else ([], s)
  end.

(** [/Progress (\d+)%: (.+)/] attempted at the start of [s]; the result holds
    the two capture groups.  [\d+] is greedy and is followed by [%], which is
    no digit, so giving back digits never helps; [.+] ends the pattern and
    takes the rest of the line. *)
Definition matchHere (s : jsstring) : option (jsstring * jsstring) :=
  match stripLiteral (lit "Progress ") s with
  | None => None
  | Some s1 =>
      match span isDigit s1 with
      | ([], _) => None
      | (ds, s2) =>
          match stripLiteral (lit "%: ") s2 with
          | None => None
          | Some s3 =>
              match span isDot s3 with
              | ([], _) => None
              | (desc, _) => Some (ds, desc)
              end
          end
      end
  end.

(** [msg.match(/Progress (\d+)%: (.+)/)]: the pattern is not anchored, the
    first start index at which it matches wins.  [None] is JavaScript's
    [null]. *)
Fixpoint progressMatch (s : jsstring) : option (jsstring * jsstring) :=
  match matchHere s with
  | Some g => Some g
  | None =>
      match s with
      | [] => None
      | _ :: s' => progressMatch s'
      end
  end.

(** The Number value of a natural number: the nearest IEEE 754 double, a
    tie going to the even significand.  A double keeps 53 significant bits,
    so [n] of [k] bits loses its [k - 53] low bits, rounded.  Numbers from
    2^1024 - 2^970 on become [Infinity], which has no counterpart here: the
    function is the Number value for the numbers below, those of up to 308
    decimal digits among them. *)
Definition toDouble (n : N) : N :=
  let e := N.size n - 53 in
  if e =? 0 then n
  else
    let q := N.shiftr n e in
    let r := n mod 2 ^ e in
    let half := 2 ^ (e - 1) in
    let q := if (half <? r) || ((r =? half) && N.odd q) then q + 1 else q in
    N.shiftl q e.

(** [parseInt] of a run of decimal digits: the Number value of the integer
    the digits denote.  It is that integer itself as long as the run has at
    most 15 digits (below 2^53).  Beyond 20 digits ECMAScript lets an engine
    read the later digits as zeros before rounding, so the function is the
    engine's result for every run of up to 20 digits and, for an engine
    that reads all digits, up to 308. *)
Definition parseInt (ds : jsstring) : N :=
  toDouble (fold_left (fun acc c => 10 * acc + (c - 48)) ds 0).

(** The decimal value of a run of digits, most significant digit first: the
    specification's [integer(N)]. *)
Fixpoint decimal (ds : jsstring) : N :=
  match ds with
  | [] => 0
  | d :: r => (d - 48) * 10 ^ N.of_nat (length r) + decimal r
  end.

(** What every call site computes from a message: [parseInt(m[1])] and
    [m[2]] of the match, when there is one. *)
Definition parseProgress (msg : jsstring) : option (N * jsstring) :=
  match progressMatch msg with
  | Some (ds, desc) => Some (parseInt ds, desc)
  | None => None
  end.

(** ECMAScript WhiteSpace and LineTerminator code units, the ones
    [String.prototype.trim] removes. *)
Definition isWhiteSpace (c : N) : bool :=
  (c =? 9) || (c =? 10) || (c =? 11) || (c =? 12) || (c =? 13) || (c =? 32)
  || (c =? 160) || (c =? 5760) || ((8192 <=? c) && (c <=? 8202))
  || (c =? 8232) || (c =? 8233) || (c =? 8239) || (c =? 8287)
  || (c =? 12288) || (c =? 65279).

Fixpoint trimStart (s : jsstring) : jsstring :=
  match s with
  | [] => []
  | c :: s' => if isWhiteSpace c then trimStart s' else s
  end.

(** The specification's [trimmed]: surrounding white space removed.  No
    call site of the pattern applies it. *)
Definition trim (s : jsstring) : jsstring :=
  rev (trimStart (rev (trimStart s))).

End JS.


(** ** Projects, the project slice of the store, promises *)

Module Project.

(** [status: 'pending' | 'processing' | 'completed' | 'failed']. *)
Inductive Status := pending | processing | completed | failed.

#[global] Instance Status_eq_dec : EqDecision Status.
Proof. solve_decision. Defined.

(** The fields of a project record that the polling code reads.  The detail
    page reads [status_message], the dashboard [error_message]; both are
    optional. *)
Record t := {
  id : N;
  name : JS.jsstring;
  status : Status;
  status_message : option JS.jsstring;
  error_message : option JS.jsstring
}.

#[global] Instance t_eq_dec : EqDecision t.
Proof. solve_decision. Defined.

(** [status === 'completed' || status === 'failed']. *)
Definition isTerminal (st : Status) : bool :=
  match st with
  | completed | failed => true
  | _ => false
  end.

(** [status === 'processing' || status === 'pending']. *)
Definition isUnfinished (st : Status) : bool :=
  match st with
  | processing | pending => true
  | _ => false
  end.

End Project.

Module Snapshot.

Import JS Project.

(** The parse result of the specification for a fetched project: the status
    and, when the project determines them, percent and step.  [None] stands
    for a value the project does not determine; the stored one is kept. *)
Definition parsed (p : Project.t) : Status * option N * option jsstring :=
  match Project.status p with
  | processing =>
      match status_message p with
      | Some (m :: sg) =>
          match parseProgress (m :: sg) with
          | Some (n, st) => (processing, Some n, Some st)
          | None => (processing, None, Some (m :: sg))
          end
      | _ => (processing, None, None)
      end
  | completed =>
      (completed, Some 100, Some (lit "Processing completed successfully!"))
  | failed =>
      (failed, None, Some (orElse (status_message p) (lit "Processing failed")))
  | pending => (pending, None, None)
  end.


End Snapshot.

Module projectSlice.

Record ProjectState := {
  projects : list Project.t;
  currentProject : option Project.t;
  loading : bool;
  error : option JS.jsstring
}.

Definition initialState : ProjectState :=
  {| projects := []; currentProject := None; loading := false; error := None |}.

Definition fetchProjectsSuccess (payload : list Project.t) (state : ProjectState)
  : ProjectState :=
  {| projects := payload; currentProject := currentProject state;
     loading := false; error := error state |}.

Definition setCurrentProject (payload : Project.t) (state : ProjectState)
  : ProjectState :=
  {| projects := projects state; currentProject := Some payload;
     loading := loading state; error := error state |}.

(** [state.currentProject?.id === payload]. *)
Definition currentIs (payload : N) (state : ProjectState) : bool :=
  match currentProject state with
  | Some p => Project.id p =? payload
  | None => false
  end.

Definition deleteProject (payload : N) (state : ProjectState) : ProjectState :=
  {| projects :=
       List.filter (fun p => negb (Project.id p =? payload)) (projects state);
     currentProject :=
       if currentIs payload state then None else currentProject state;
     loading := loading state; error := error state |}.

(** The ids present in the list of projects. *)
Definition ids (state : ProjectState) : list N :=
  List.map Project.id (projects state).

End projectSlice.

Module Promise.

(** What the code reads of an axios failure: [error.response?.status],
    [error.response?.data?.detail] and [error.message]. *)
Record Error := {
  response_status : option N;
  detail : option JS.jsstring;
  message : option JS.jsstring
}.

Inductive Settled (A : Type) :=
  | Fulfilled (a : A)
  | Rejected (e : Error).

Arguments Fulfilled {A} a.
Arguments Rejected {A} e.

End Promise.

Module Console.

(** One call of [console.log] or [console.error], with its first argument. *)
Inductive Entry :=
  | log (label : string)
  | error (label : string) (e : Promise.Error).

End Console.

(** ** The axios client and its interceptors *)

Module api.

(** The two pieces of the browser the interceptors touch. *)
Record Browser := {
  localStorage : gmap string JS.jsstring;
  href : string
}.

Record Config := {
  url : string;
  headers : gmap string JS.jsstring
}.

(** Request interceptor: a truthy stored token becomes a bearer header. *)
Definition requestInterceptor (config : Config) (b : Browser) : Config :=
  match localStorage b !! "token" with
  | Some (c :: r) =>
      {| url := url config;
         headers :=
           <["Authorization" := JS.lit "Bearer " ++ c :: r]> (headers config) |}
  | _ => config
  end.

(** Response interceptor, rejection handler: on a 401 the token is removed
    and the page is sent to the login route.  The handler then rejects with
    the same error, see [request]. *)
Definition responseRejected (e : Promise.Error) (b : Browser) : Browser :=
  if decide (Promise.response_status e = Some 401) then
    {| localStorage := delete "token" (localStorage b); href := "/login" |}
  else b.

(** One request through the client, given how the transport settled: a
    response passes through unchanged, a failure runs the rejection handler
    and stays a rejection. *)
Definition request {A : Type} (net : Promise.Settled A) (b : Browser)
  : Browser * Promise.Settled A :=
  match net with
  | Promise.Fulfilled a => (b, Promise.Fulfilled a)
  | Promise.Rejected e => (responseRejected e b, Promise.Rejected e)
  end.

(** [projectService.getProject(id)]: [api.get] and then [response.data]. *)
Definition getProject (net : Promise.Settled Project.t) (b : Browser)
  : Browser * Promise.Settled Project.t :=
  request net b.

End api.

(** ** The project page, revision with the timer in a [useRef] cell *)

Module ProjectDetailRef.

Import JS Project Promise.

(** The [useState] cells of the component. *)
Record Cells := {
  loading : bool;
  error : option jsstring;
  deleting : bool;
  status : option Status;
  progress : N;
  currentStep : jsstring;
  processing : bool;
  showDeleteDialog : bool;
  deleteSuccess : bool;
  deletedProjectName : jsstring
}.

#[global] Instance Cells_eq_dec : EqDecision Cells.
Proof. solve_decision. Defined.

Definition initialCells : Cells :=
  {| loading := true; error := None; deleting := false; status := None;
     progress := 0; currentStep := []; processing := false;
     showDeleteDialog := false; deleteSuccess := false;
     deletedProjectName := [] |}.

(** What the functions created in one render see: [Number(id)] and the
    values the cells had in that render.  A timer callback keeps the closure
    of the render that called [pollForUpdates]. *)
Record Closure := {
  id : N;
  c_status : option Status;
  c_progress : N;
  c_currentStep : jsstring;
  c_deleteSuccess : bool
}.

(** A [setTimeout] task that has not run yet. *)
Inductive Task :=
  | StartPolling (c : Closure)
  | Navigate (path : string).

Record State := {
  cells : Cells;
  store : projectSlice.ProjectState;
  pollingIntervalRef : option N;
  intervals : gmap N Closure;
  timeouts : list Task;
  nextHandle : N;
  console : list Console.Entry;
  dirty : bool;
  setCalls : nat
}.

Definition initialState (st : projectSlice.ProjectState) : State :=
  {| cells := initialCells; store := st; pollingIntervalRef := None;
     intervals := ∅; timeouts := []; nextHandle := 1; console := [];
     dirty := false; setCalls := 0 |}.

(** The closure of a render of state [s] for route parameter [i]. *)
Definition closureOf (i : N) (s : State) : Closure :=
  {| id := i; c_status := status (cells s); c_progress := progress (cells s);
     c_currentStep := currentStep (cells s);
     c_deleteSuccess := deleteSuccess (cells s) |}.

(** A call of a state setter.  The cell takes the new value and the call
    is counted in [setCalls]: a call is the page's request to React to update
    it, whatever the value.  [dirty] records that a call of the running task
    gave a cell a value other than the stored one; it says which tasks
    changed the state, not how often React runs the component (React can
    run it again after a call that repeats the stored value). *)
Definition write (f : Cells -> Cells) (s : State) : State :=
  {| cells := f (cells s); store := store s;
     pollingIntervalRef := pollingIntervalRef s;
     intervals := intervals s; timeouts := timeouts s;
     nextHandle := nextHandle s; console := console s;
     dirty := dirty s || negb (bool_decide (f (cells s) = cells s));
     setCalls := S (setCalls s) |}.

(** The end of one task of the event loop: the values written in it are
    the stored ones from now on, and no change is pending. *)
Definition flush (s : State) : State :=
  {| cells := cells s; store := store s;
     pollingIntervalRef := pollingIntervalRef s;
     intervals := intervals s; timeouts := timeouts s;
     nextHandle := nextHandle s; console := console s;
     dirty := false; setCalls := setCalls s |}.

Definition setLoading (v : bool) : State -> State :=
  write (fun c =>
    {| loading := v; error := error c; deleting := deleting c;
       status := status c; progress := progress c;
       currentStep := currentStep c; processing := processing c;
       showDeleteDialog := showDeleteDialog c;
       deleteSuccess := deleteSuccess c;
       deletedProjectName := deletedProjectName c |}).

Definition setError (v : option jsstring) : State -> State :=
  write (fun c =>
    {| loading := loading c; error := v; deleting := deleting c;
       status := status c; progress := progress c;
       currentStep := currentStep c; processing := processing c;
       showDeleteDialog := showDeleteDialog c;
       deleteSuccess := deleteSuccess c;
       deletedProjectName := deletedProjectName c |}).

Definition setDeleting (v : bool) : State -> State :=
  write (fun c =>
    {| loading := loading c; error := error c; deleting := v;
       status := status c; progress := progress c;
       currentStep := currentStep c; processing := processing c;
       showDeleteDialog := showDeleteDialog c;
       deleteSuccess := deleteSuccess c;
       deletedProjectName := deletedProjectName c |}).

Definition setStatus (v : option Status) : State -> State :=
  write (fun c =>
    {| loading := loading c; error := error c; deleting := deleting c;
       status := v; progress := progress c;
       currentStep := currentStep c; processing := processing c;
       showDeleteDialog := showDeleteDialog c;
       deleteSuccess := deleteSuccess c;
       deletedProjectName := deletedProjectName c |}).

Definition setProgress (v : N) : State -> State :=
  write (fun c =>
    {| loading := loading c; error := error c; deleting := deleting c;
       status := status c; progress := v;
       currentStep := currentStep c; processing := processing c;
       showDeleteDialog := showDeleteDialog c;
       deleteSuccess := deleteSuccess c;
       deletedProjectName := deletedProjectName c |}).

Definition setCurrentStep (v : jsstring) : State -> State :=
  write (fun c =>
    {| loading := loading c; error := error c; deleting := deleting c;
       status := status c; progress := progress c;
       currentStep := v; processing := processing c;
       showDeleteDialog := showDeleteDialog c;
       deleteSuccess := deleteSuccess c;
       deletedProjectName := deletedProjectName c |}).

Definition setProcessing (v : bool) : State -> State :=
  write (fun c =>
    {| loading := loading c; error := error c; deleting := deleting c;
       status := status c; progress := progress c;
       currentStep := currentStep c; processing := v;
       showDeleteDialog := showDeleteDialog c;
       deleteSuccess := deleteSuccess c;
       deletedProjectName := deletedProjectName c |}).

Definition setShowDeleteDialog (v : bool) : State -> State :=
  write (fun c =>
    {| loading := loading c; error := error c; deleting := deleting c;
       status := status c; progress := progress c;
       currentStep := currentStep c; processing := processing c;
       showDeleteDialog := v;
       deleteSuccess := deleteSuccess c;
       deletedProjectName := deletedProjectName c |}).

Definition setDeleteSuccess (v : bool) : State -> State :=
  write (fun c =>
    {| loading := loading c; error := error c; deleting := deleting c;
       status := status c; progress := progress c;
       currentStep := currentStep c; processing := processing c;
       showDeleteDialog := showDeleteDialog c;
       deleteSuccess := v;
       deletedProjectName := deletedProjectName c |}).

Definition setDeletedProjectName (v : jsstring) : State -> State :=
  write (fun c =>
    {| loading := loading c; error := error c; deleting := deleting c;
       status := status c; progress := progress c;
       currentStep := currentStep c; processing := processing c;
       showDeleteDialog := showDeleteDialog c;
       deleteSuccess := deleteSuccess c;
       deletedProjectName := v |}).

(** [dispatch(action)] on the project slice. *)
Definition dispatch (r : projectSlice.ProjectState -> projectSlice.ProjectState)
  (s : State) : State :=
  {| cells := cells s; store := r (store s);
     pollingIntervalRef := pollingIntervalRef s;
     intervals := intervals s; timeouts := timeouts s;
     nextHandle := nextHandle s; console := console s;
     dirty := dirty s; setCalls := setCalls s |}.

(** [pollingIntervalRef.current = v]. *)
Definition setRef (v : option N) (s : State) : State :=
  {| cells := cells s; store := store s; pollingIntervalRef := v;
     intervals := intervals s; timeouts := timeouts s;
     nextHandle := nextHandle s; console := console s;
     dirty := dirty s; setCalls := setCalls s |}.

(** [setInterval(callback, 3000)]: a fresh handle, the callback is kept
    with the closure it was created in. *)
Definition setInterval (c : Closure) (s : State) : N * State :=
  (nextHandle s,
   {| cells := cells s; store := store s;
      pollingIntervalRef := pollingIntervalRef s;
      intervals := <[nextHandle s := c]> (intervals s);
      timeouts := timeouts s; nextHandle := nextHandle s + 1;
      console := console s; dirty := dirty s; setCalls := setCalls s |}).

Definition clearInterval (h : N) (s : State) : State :=
  {| cells := cells s; store := store s;
     pollingIntervalRef := pollingIntervalRef s;
     intervals := delete h (intervals s); timeouts := timeouts s;
     nextHandle := nextHandle s; console := console s;
     dirty := dirty s; setCalls := setCalls s |}.

Definition setTimeout (t : Task) (s : State) : State :=
  {| cells := cells s; store := store s;
     pollingIntervalRef := pollingIntervalRef s;
     intervals := intervals s; timeouts := timeouts s ++ [t];
     nextHandle := nextHandle s; console := console s;
     dirty := dirty s; setCalls := setCalls s |}.

Definition print (e : Console.Entry) (s : State) : State :=
  {| cells := cells s; store := store s;
     pollingIntervalRef := pollingIntervalRef s;
     intervals := intervals s; timeouts := timeouts s;
     nextHandle := nextHandle s; console := console s ++ [e];
     dirty := dirty s; setCalls := setCalls s |}.

(** [pollForUpdates()], called from a render with closure [c]: always
    creates a timer and makes it the current one of the ref. *)
Definition pollForUpdates (c : Closure) (s : State) : N * State :=
  let s := print (Console.log "Starting polling for project updates...") s in
  let '(interval, s) := setInterval c s in
  (interval, setRef (Some interval) s).

(** A timer fires only while its handle is registered; the callback then
    logs and issues [getProject(Number(id))]. *)
Definition tickFired (interval : N) (s : State) : option (Closure * State) :=
  match intervals s !! interval with
  | Some c => Some (c, print (Console.log "Polling for project updates...") s)
  | None => None
  end.

(** Lines 139 to 167: the status and, for a processing project with a
    message, progress and step; each setter is guarded by a comparison with
    the value of the closure. *)
Definition tickUpdate (c : Closure) (updatedProject : Project.t) (s : State)
  : State :=
  let s := print (Console.log "Polling - Project status:") s in
  let s := print (Console.log "Polling - Status message:") s in
  let s :=
    if decide (Some (Project.status updatedProject) = c_status c) then s
    else setStatus (Some (Project.status updatedProject)) s in
  match Project.status updatedProject, status_message updatedProject with
  | Project.processing, Some (m :: sg) =>
      match parseProgress (m :: sg) with
      | Some (newProgress, newStep) =>
          let s := print (Console.log "Polling - Progress update:") s in
          let s :=
            if decide (newProgress = c_progress c) then s
            else setProgress newProgress s in
          if decide (newStep = c_currentStep c) then s
          else setCurrentStep newStep s
      | None =>
          if decide (m :: sg = c_currentStep c) then s
          else setCurrentStep (m :: sg) s
      end
  | _, _ => s
  end.

(** Lines 169 to 180: on a terminal status the timer is cleared and the ref
    emptied, then the completion or failure values are written. *)
Definition tickTerminal (interval : N) (updatedProject : Project.t) (s : State)
  : State :=
  match Project.status updatedProject with
  | completed =>
      let s := print (Console.log "Processing complete, stopping polling") s in
      let s := clearInterval interval s in
      let s := setRef None s in
      let s := setProgress 100 s in
      setCurrentStep (lit "Processing completed successfully!") s
  | failed =>
      let s := print (Console.log "Processing complete, stopping polling") s in
      let s := clearInterval interval s in
      let s := setRef None s in
      setCurrentStep
        (orElse (status_message updatedProject) (lit "Processing failed")) s
  | _ => s
  end.

(** The rest of the callback once the request has settled.  The whole body
    sits in [try]/[catch]: a rejection is logged and nothing else happens. *)
Definition tickSettled (interval : N) (c : Closure)
  (r : Settled Project.t) (s : State) : State :=
  flush
    match r with
    | Fulfilled updatedProject =>
        tickTerminal interval updatedProject (tickUpdate c updatedProject s)
    | Rejected e => print (Console.error "Error polling for updates:" e) s
    end.

(** The cleanup returned by the effect. *)
Definition effectCleanup (s : State) : State :=
  match pollingIntervalRef s with
  | Some h =>
      let s := print (Console.log "Cleaning up polling interval") s in
      setRef None (clearInterval h s)
  | None => s
  end.

(** [fetchProject()] up to its [await]; [None] when it returns at once. *)
Definition fetchProject (c : Closure) (s : State) : option State :=
  if c_deleteSuccess c then None
  else Some (flush (setError None (setLoading true s))).

(** [fetchProject()] after its [await]. *)
Definition fetchProjectSettled (c : Closure) (r : Settled Project.t)
  (s : State) : State :=
  flush (setLoading false
    match r with
    | Fulfilled data =>
        let s := dispatch (projectSlice.setCurrentProject data) s in
        let s := setStatus (Some (Project.status data)) s in
        let s :=
          match Project.status data, status_message data with
          | Project.processing, Some (m :: sg) =>
              let s := print (Console.log "Initial status message:") s in
              match parseProgress (m :: sg) with
              | Some (newProgress, newStep) =>
                  let s := print (Console.log "Initial progress:") s in
                  setCurrentStep newStep (setProgress newProgress s)
              | None => setCurrentStep (m :: sg) s
              end
          | _, _ => s
          end in
        match Project.status data with
        | Project.processing =>
            let s :=
              print (Console.log "Project is processing, starting polling...")
                s in
            snd (pollForUpdates c s)
        | _ => s
        end
    | Rejected e =>
        let s := print (Console.error "Error fetching project:" e) s in
        setError (Some (lit "Failed to fetch project")) s
    end).

(** The effect with dependencies [id, dispatch, deleteSuccess], run for the
    render of state [s]: the previous cleanup, then the body, which calls
    [fetchProject] (a route [/projects/:id] always has an [id]). *)
Definition effect (i : N) (s : State) : State :=
  let s := effectCleanup s in
  match fetchProject (closureOf i s) s with
  | Some s' => s'
  | None => s
  end.

(** [handleStartProcessing] after [startProcessing] has settled;
    [setProcessing(true)] before it is not modelled apart. *)
Definition handleStartProcessingSettled (c : Closure) (r : Settled unit)
  (s : State) : State :=
  flush (setProcessing false
    match r with
    | Fulfilled _ =>
        let s := setStatus (Some Project.processing) s in
        let s := setProgress 0 s in
        let s := setCurrentStep (lit "Starting Wav2Lip processing...") s in
        setTimeout (StartPolling c) s
    | Rejected e =>
        let s := print (Console.error "Error starting processing:" e) s in
        setError (Some (lit "Failed to start processing")) s
    end).

(** The delayed task of [handleStartProcessing], one second later. *)
Definition startPollingTask (c : Closure) (s : State) : N * State :=
  let s := print (Console.log "Starting processing, beginning polling...") s in
  pollForUpdates c s.

(** [handleDelete] up to its [await]. *)
Definition handleDelete (projectToDelete : option Project.t) (s : State)
  : State :=
  flush
    match projectToDelete with
    | None =>
        let e := {| response_status := None; detail := None; message := None |} in
        let s := print (Console.error "No project to delete" e) s in
        setError (Some (lit "No project to delete")) s
    | Some p =>
        let s := print (Console.log "Attempting to delete project:") s in
        let s := setDeleting true s in
        let s := setError None s in
        let s := setDeleteSuccess true s in
        let s := setDeletedProjectName (Project.name p) s in
        print (Console.log "Delete success state set immediately for project:")
          s
    end.

(** [error.response?.data?.detail], else [error.message], else the default. *)
Definition deleteErrorMessage (e : Error) : jsstring :=
  match detail e with
  | Some (c :: r) => c :: r
  | _ => orElse (message e) (lit "Failed to delete project")
  end.

(** [handleDelete] after [deleteProject(projectToDelete.id)] has settled. *)
Definition handleDeleteSettled (p : Project.t) (r : Settled unit) (s : State)
  : State :=
  flush (setDeleting false
    match r with
    | Fulfilled _ =>
        let s := print (Console.log "Delete response:") s in
        let s := dispatch (projectSlice.deleteProject (Project.id p)) s in
        let s := setShowDeleteDialog false s in
        setTimeout (Navigate "/dashboard") s
    | Rejected e =>
        let s := print (Console.error "Error deleting project:" e) s in
        let s := setDeleteSuccess false s in
        let s := setDeletedProjectName [] s in
        setError (Some (deleteErrorMessage e)) s
    end).

End ProjectDetailRef.

(** ** The project page, revision with the timer in a [useState] cell *)

Module ProjectDetail.

Import JS Project Promise.

(** The [useState] cells of the component; the timer handle is one. *)
Record Cells := {
  loading : bool;
  error : option jsstring;
  deleting : bool;
  status : option Status;
  progress : N;
  currentStep : jsstring;
  processing : bool;
  showDeleteDialog : bool;
  pollingInterval : option N
}.

#[global] Instance Cells_eq_dec : EqDecision Cells.
Proof. solve_decision. Defined.

Definition initialCells : Cells :=
  {| loading := true; error := None; deleting := false; status := None;
     progress := 0; currentStep := []; processing := false;
     showDeleteDialog := false; pollingInterval := None |}.

(** What the functions created in one render see: [Number(id)] and the
    timer handle the cell held in that render.  The timer callback of this
    revision reads no cell. *)
Record Closure := {
  id : N;
  c_pollingInterval : option N
}.

Record State := {
  cells : Cells;
  intervals : gmap N Closure;
  nextHandle : N;
  console : list Console.Entry;
  dirty : bool;
  setCalls : nat
}.

Definition initialState : State :=
  {| cells := initialCells; intervals := ∅; nextHandle := 1; console := [];
     dirty := false; setCalls := 0 |}.

Definition closureOf (i : N) (s : State) : Closure :=
  {| id := i; c_pollingInterval := pollingInterval (cells s) |}.

(** A call of a state setter: the cell takes the new value and the call
    is counted in [setCalls]; [dirty] records that a call of the running
    task gave a cell a value other than the stored one.  As in the other
    revision, neither counts the times React runs the component. *)
Definition write (f : Cells -> Cells) (s : State) : State :=
  {| cells := f (cells s); intervals := intervals s;
     nextHandle := nextHandle s; console := console s;
     dirty := dirty s || negb (bool_decide (f (cells s) = cells s));
     setCalls := S (setCalls s) |}.

(** The end of one task of the event loop: no change is pending. *)
Definition flush (s : State) : State :=
  {| cells := cells s; intervals := intervals s; nextHandle := nextHandle s;
     console := console s; dirty := false; setCalls := setCalls s |}.

Definition setError (v : option jsstring) : State -> State :=
  write (fun c =>
    {| loading := loading c; error := v; deleting := deleting c;
       status := status c; progress := progress c;
       currentStep := currentStep c; processing := processing c;
       showDeleteDialog := showDeleteDialog c;
       pollingInterval := pollingInterval c |}).

Definition setStatus (v : option Status) : State -> State :=
  write (fun c =>
    {| loading := loading c; error := error c; deleting := deleting c;
       status := v; progress := progress c; currentStep := currentStep c;
       processing := processing c; showDeleteDialog := showDeleteDialog c;
       pollingInterval := pollingInterval c |}).

Definition setProgress (v : N) : State -> State :=
  write (fun c =>
    {| loading := loading c; error := error c; deleting := deleting c;
       status := status c; progress := v; currentStep := currentStep c;
       processing := processing c; showDeleteDialog := showDeleteDialog c;
       pollingInterval := pollingInterval c |}).

Definition setCurrentStep (v : jsstring) : State -> State :=
  write (fun c =>
    {| loading := loading c; error := error c; deleting := deleting c;
       status := status c; progress := progress c; currentStep := v;
       processing := processing c; showDeleteDialog := showDeleteDialog c;
       pollingInterval := pollingInterval c |}).

Definition setProcessing (v : bool) : State -> State :=
  write (fun c =>
    {| loading := loading c; error := error c; deleting := deleting c;
       status := status c; progress := progress c;
       currentStep := currentStep c; processing := v;
       showDeleteDialog := showDeleteDialog c;
       pollingInterval := pollingInterval c |}).

Definition setPollingInterval (v : option N) : State -> State :=
  write (fun c =>
    {| loading := loading c; error := error c; deleting := deleting c;
       status := status c; progress := progress c;
       currentStep := currentStep c; processing := processing c;
       showDeleteDialog := showDeleteDialog c; pollingInterval := v |}).

Definition setInterval (c : Closure) (s : State) : N * State :=
  (nextHandle s,
   {| cells := cells s; intervals := <[nextHandle s := c]> (intervals s);
      nextHandle := nextHandle s + 1; console := console s;
      dirty := dirty s; setCalls := setCalls s |}).

Definition clearInterval (h : N) (s : State) : State :=
  {| cells := cells s; intervals := delete h (intervals s);
     nextHandle := nextHandle s; console := console s; dirty := dirty s;
     setCalls := setCalls s |}.

Definition print (e : Console.Entry) (s : State) : State :=
  {| cells := cells s; intervals := intervals s; nextHandle := nextHandle s;
     console := console s ++ [e]; dirty := dirty s; setCalls := setCalls s |}.

(** [pollForUpdates()], called from a render with closure [c]: always
    creates a timer and stores its handle in the cell. *)
Definition pollForUpdates (c : Closure) (s : State) : N * State :=
  let s := print (Console.log "Starting polling for project updates...") s in
  let '(interval, s) := setInterval c s in
  (interval, setPollingInterval (Some interval) s).

(** A timer fires only while its handle is registered; the callback then
    logs and issues [getProject(Number(id))]. *)
Definition tickFired (interval : N) (s : State) : option (Closure * State) :=
  match intervals s !! interval with
  | Some c => Some (c, print (Console.log "Polling for project updates...") s)
  | None => None
  end.

(** Lines 147 to 167: the status and, for a processing project with a
    message, progress and step; the setters are called without a guard. *)
Definition tickUpdate (updatedProject : Project.t) (s : State) : State :=
  let s := print (Console.log "Polling - Project status:") s in
  let s := print (Console.log "Polling - Status message:") s in
  let s := setStatus (Some (Project.status updatedProject)) s in
  match Project.status updatedProject, status_message updatedProject with
  | Project.processing, Some (m :: sg) =>
      match parseProgress (m :: sg) with
      | Some (newProgress, newStep) =>
          let s := print (Console.log "Polling - Progress update:") s in
          let s := setProgress newProgress s in
          setCurrentStep newStep s
      | None => setCurrentStep (m :: sg) s
      end
  | _, _ => s
  end.

(** Lines 169 to 180: on a terminal status the timer is cleared and the
    cell emptied, then the completion or failure values are written. *)
Definition tickTerminal (interval : N) (updatedProject : Project.t) (s : State)
  : State :=
  match Project.status updatedProject with
  | completed =>
      let s := print (Console.log "Processing complete, stopping polling") s in
      let s := clearInterval interval s in
      let s := setPollingInterval None s in
      let s := setProgress 100 s in
      setCurrentStep (lit "Processing completed successfully!") s
  | failed =>
      let s := print (Console.log "Processing complete, stopping polling") s in
      let s := clearInterval interval s in
      let s := setPollingInterval None s in
      setCurrentStep
        (orElse (status_message updatedProject) (lit "Processing failed")) s
  | _ => s
  end.

(** The rest of the callback once the request has settled.  The whole body
    sits in [try]/[catch]: a rejection is logged and nothing else happens. *)
Definition tickSettled (interval : N) (r : Settled Project.t) (s : State)
  : State :=
  flush
    match r with
    | Fulfilled updatedProject =>
        tickTerminal interval updatedProject (tickUpdate updatedProject s)
    | Rejected e => print (Console.error "Error polling for updates:" e) s
    end.

(** The cleanup returned by the effect; it reads the handle of the render
    the effect ran in. *)
Definition effectCleanup (c : Closure) (s : State) : State :=
  flush
    match c_pollingInterval c with
    | Some h =>
        let s := print (Console.log "Cleaning up polling interval") s in
        setPollingInterval None (clearInterval h s)
    | None => s
    end.

(** [handleStartProcessing] after [startProcessing] has settled. *)
Definition handleStartProcessingSettled (c : Closure) (r : Settled unit)
  (s : State) : State :=
  flush (setProcessing false
    match r with
    | Fulfilled _ =>
        let s := setStatus (Some Project.processing) s in
        let s := setProgress 0 s in
        let s := setCurrentStep (lit "Starting Wav2Lip processing...") s in
        let s :=
          print (Console.log "Starting processing, beginning polling...") s in
        snd (pollForUpdates c s)
    | Rejected e =>
        let s := print (Console.error "Error starting processing:" e) s in
        setError (Some (lit "Failed to start processing")) s
    end).

(** The click handler of the [Refresh Status] button after its request has
    settled.  It is the one caller that starts polling only when the handle
    cell of its render is empty. *)
Definition refreshSettled (c : Closure) (r : Settled Project.t) (s : State)
  : State :=
  flush
    match r with
    | Fulfilled updatedProject =>
        let s := print (Console.log "Manual refresh - Project:") s in
        let s := setStatus (Some (Project.status updatedProject)) s in
        let s :=
          match Project.status updatedProject, status_message updatedProject with
          | Project.processing, Some (m :: sg) =>
              let s := print (Console.log "Manual refresh - Status message:") s in
              match parseProgress (m :: sg) with
              | Some (newProgress, newStep) =>
                  let s := print (Console.log "Manual refresh - Progress:") s in
                  setCurrentStep newStep (setProgress newProgress s)
              | None => setCurrentStep (m :: sg) s
              end
          | _, _ => s
          end in
        match Project.status updatedProject, c_pollingInterval c with
        | Project.processing, None =>
            let s :=
              print (Console.log "Manual refresh - Starting polling...") s in
            snd (pollForUpdates c s)
        | _, _ => s
        end
    | Rejected e => print (Console.error "Error refreshing status:" e) s
    end.

End ProjectDetail.

(** ** The dashboard *)

Module Dashboard.

Import JS Project Promise.

(** The store, the [projectProgress] cell, the timers with the list of
    projects their callback closed over, and the cleanup the last run of the
    polling effect returned. *)
Record State := {
  store : projectSlice.ProjectState;
  projectProgress : gmap N (N * jsstring);
  intervals : gmap N (list Project.t);
  cleanup : option N;
  nextHandle : N;
  console : list Console.Entry;
  renders : nat
}.

Definition initialState (st : projectSlice.ProjectState) : State :=
  {| store := st; projectProgress := ∅; intervals := ∅; cleanup := None;
     nextHandle := 1; console := []; renders := 0 |}.

(** [projects.filter(p => p.status === 'processing' || p.status === 'pending')]. *)
Definition processingProjects (projects : list Project.t) : list Project.t :=
  List.filter (fun p => isUnfinished (Project.status p)) projects.

(** The cleanup of the previous run, [() => clearInterval(interval)]. *)
Definition runCleanup (s : State) : State :=
  match cleanup s with
  | Some h =>
      {| store := store s; projectProgress := projectProgress s;
         intervals := delete h (intervals s); cleanup := None;
         nextHandle := nextHandle s; console := console s;
         renders := renders s |}
  | None => s
  end.

(** The polling effect with dependency [projects], run after a change of
    the list: React runs the previous cleanup, then the body.  With no
    unfinished project the body returns at once and no cleanup; otherwise it
    starts one timer for all of them and returns its cleanup. *)
Definition pollingEffect (s : State) : State :=
  let s := runCleanup s in
  match processingProjects (projectSlice.projects (store s)) with
  | [] => s
  | p :: ps =>
      {| store := store s; projectProgress := projectProgress s;
         intervals := <[nextHandle s := p :: ps]> (intervals s);
         cleanup := Some (nextHandle s);
         nextHandle := nextHandle s + 1; console := console s;
         renders := renders s |}
  end.

(** A project is polled when a registered timer has it in its list. *)
Definition polled (s : State) (p : Project.t) : Prop :=
  exists h ps, intervals s !! h = Some ps /\ In p ps.

(** The inner [try]/[catch] around one [getProject]: a failure yields the
    project as the closure has it, and nothing is logged. *)
Definition settle (project : Project.t) (r : Settled Project.t) : Project.t :=
  match r with
  | Fulfilled updated => updated
  | Rejected _ => project
  end.

(** [Promise.all(processingProjects.map(...))], given how each request
    settled, in the order of the list. *)
Fixpoint updatedProjects (ps : list Project.t) (rs : list (Settled Project.t))
  : list Project.t :=
  match ps, rs with
  | p :: ps', r :: rs' => settle p r :: updatedProjects ps' rs'
  | _, _ => []
  end.

(** One iteration of the [forEach] that fills [progressData]. *)
Definition recordProgress (acc : gmap N (N * jsstring)) (project : Project.t)
  : gmap N (N * jsstring) :=
  match error_message project with
  | Some (m :: sg) =>
      match parseProgress (m :: sg) with
      | Some (n, st) => <[Project.id project := (n, st)]> acc
      | None => acc
      end
  | _ => acc
  end.

Definition progressData (ps : list Project.t) : gmap N (N * jsstring) :=
  fold_left recordProgress ps ∅.

Definition tickFired (interval : N) (s : State) : option (list Project.t) :=
  intervals s !! interval.

(** The callback after [Promise.all] has settled.  [setProjectProgress]
    gets a new object each time, so every tick is rendered.  Nothing after
    the inner [catch] can throw, the outer [catch] is never entered. *)
Definition tickSettled (ps : list Project.t) (rs : list (Settled Project.t))
  (s : State) : State :=
  {| store := store s;
     projectProgress := progressData (updatedProjects ps rs);
     intervals := intervals s; cleanup := cleanup s;
     nextHandle := nextHandle s; console := console s;
     renders := S (renders s) |}.

End Dashboard.

(** ** Document and timers *)

Module Document.

(** The timers of the project page belong to the document loaded at the
    route of the page.  An assignment to [window.location.href] replaces the
    document, and with it every timer: none of them fires any more. *)
Definition timerFires (route : string) (b : api.Browser)
  (s : ProjectDetailRef.State) (interval : N)
  : option (ProjectDetailRef.Closure * ProjectDetailRef.State) :=
  if decide (api.href b = route) then ProjectDetailRef.tickFired interval s
  else None.

End Document.

(** ** The remaining reducers of the project slice *)

Module projectReducers.

Import Project projectSlice.

Definition fetchProjectsStart (state : ProjectState) : ProjectState :=
  {| projects := projects state; currentProject := currentProject state;
     loading := true; error := None |}.

Definition fetchProjectsFailure (payload : JS.jsstring) (state : ProjectState)
  : ProjectState :=
  {| projects := projects state; currentProject := currentProject state;
     loading := false; error := Some payload |}.

(** [state.projects.push(action.payload)]. *)
Definition createProjectSuccess (payload : Project.t) (state : ProjectState)
  : ProjectState :=
  {| projects := projects state ++ [payload];
     currentProject := currentProject state;
     loading := false; error := error state |}.

(** [project.status = status] on one record. *)
Definition withStatus (st : Status) (p : Project.t) : Project.t :=
  {| Project.id := Project.id p; name := name p; status := st;
     status_message := status_message p;
     error_message := error_message p |}.

(** [find] yields the first project with the id; its status is assigned in
    place.  Without such a project nothing is assigned. *)
Fixpoint assignFirst (i : N) (st : Status) (ps : list Project.t)
  : list Project.t :=
  match ps with
  | [] => []
  | p :: r =>
      if Project.id p =? i then withStatus st p :: r
      else p :: assignFirst i st r
  end.

Definition updateProjectStatus (i : N) (st : Status) (state : ProjectState)
  : ProjectState :=
  {| projects := assignFirst i st (projects state);
     currentProject :=
       match currentProject state with
       | Some p => if Project.id p =? i then Some (withStatus st p) else Some p
       | None => None
       end;
     loading := loading state; error := error state |}.

Definition clearError (state : ProjectState) : ProjectState :=
  {| projects := projects state; currentProject := currentProject state;
     loading := loading state; error := None |}.

End projectReducers.

(** ** The auth slice and the start of the application *)

Module authSlice.

Import JS.

Record User := {
  user_id : N;
  email : jsstring;
  username : jsstring
}.

Record AuthState := {
  user : option User;
  token : option jsstring;
  isAuthenticated : bool;
  loading : bool;
  error : option jsstring
}.

(** [localStorage.getItem('token')]; [None] is [null]. *)
Definition getToken (b : api.Browser) : option jsstring :=
  api.localStorage b !! "token".

(** [!!s] and [if (s)] for an optional string. *)
Definition truthy (o : option jsstring) : bool :=
  match o with
  | Some (_ :: _) => true
  | _ => false
  end.

(** The initial state is computed from the storage when the module loads. *)
Definition initialState (b : api.Browser) : AuthState :=
  {| user := None; token := getToken b; isAuthenticated := truthy (getToken b);
     loading := false; error := None |}.

Definition loginStart (state : AuthState) : AuthState :=
  {| user := user state; token := token state;
     isAuthenticated := isAuthenticated state; loading := true;
     error := None |}.

(** The reducer also writes the storage. *)
Definition loginSuccess (access_token : jsstring)
  (sb : AuthState * api.Browser) : AuthState * api.Browser :=
  let '(state, b) := sb in
  ({| user := user state; token := Some access_token; isAuthenticated := true;
      loading := false; error := error state |},
   {| api.localStorage := <["token" := access_token]> (api.localStorage b);
      api.href := api.href b |}).

Definition loginFailure (payload : jsstring) (state : AuthState) : AuthState :=
  {| user := user state; token := token state;
     isAuthenticated := isAuthenticated state; loading := false;
     error := Some payload |}.

Definition setUser (payload : User) (state : AuthState) : AuthState :=
  {| user := Some payload; token := token state;
     isAuthenticated := isAuthenticated state; loading := loading state;
     error := error state |}.

Definition logout (sb : AuthState * api.Browser) : AuthState * api.Browser :=
  let '(state, b) := sb in
  ({| user := None; token := None; isAuthenticated := false;
      loading := loading state; error := error state |},
   {| api.localStorage := delete "token" (api.localStorage b);
      api.href := api.href b |}).

(** Only a truthy stored token changes the state. *)
Definition restoreAuthState (state : AuthState) (b : api.Browser) : AuthState :=
  match getToken b with
  | Some (c :: r) =>
      {| user := user state; token := Some (c :: r); isAuthenticated := true;
         loading := loading state; error := error state |}
  | _ => state
  end.

Definition setLoading (payload : bool) (state : AuthState) : AuthState :=
  {| user := user state; token := token state;
     isAuthenticated := isAuthenticated state; loading := payload;
     error := error state |}.

End authSlice.

Module App.

Import JS Promise authSlice.

Record State := {
  auth : AuthState;
  browser : api.Browser;
  console : list Console.Entry
}.

(** The effect run when the application loads, up to the request for the
    current user; [None] when no truthy token is stored and nothing is
    done. *)
Definition loadEffect (s : State) : option State :=
  if truthy (getToken (browser s)) then
    Some {| auth := restoreAuthState (setLoading true (auth s)) (browser s);
            browser := browser s; console := console s |}
  else None.

(** The rest of the effect once [getCurrentUser()], a request through the
    client, has settled. *)
Definition loadSettled (net : Settled User) (s : State) : State :=
  let '(b, r) := api.request net (browser s) in
  match r with
  | Fulfilled u =>
      {| auth := setLoading false (setUser u (auth s)); browser := b;
         console := console s |}
  | Rejected e =>
      let b' := {| api.localStorage := delete "token" (api.localStorage b);
                   api.href := api.href b |} in
      {| auth := setLoading false (restoreAuthState (auth s) b');
         browser := b';
         console :=
           console s
           ++ [Console.error "Failed to fetch user data on app load:" e] |}
  end.

(** The element of the route [/]. *)
Definition rootRedirect (a : AuthState) : string :=
  if isAuthenticated a then "/dashboard" else "/login".

End App.

(** ** Helpers of the project page *)

Module ProjectView.

Import JS.

(** The class [[\\/]]: a backslash or a slash. *)
Definition isSep (c : N) : bool := (c =? 92) || (c =? 47).

(** [[\\/]uploads[\\/]] at the start of [s]; the result is what follows. *)
Definition uploadsHere (s : jsstring) : option jsstring :=
  match s with
  | a :: r =>
      if isSep a then
        match stripLiteral (lit "uploads") r with
        | Some (b :: rest) => if isSep b then Some rest else None
        | _ => None
        end
      else None
  | [] => None
  end.

(** [/^.*[\\/]uploads[\\/]/] on [s]: the greedy [.*] is tried longest first,
    so the match ends at the last [uploads] segment of the first line.  The
    result is the part of [s] after the match. *)
Fixpoint afterUploads (s : jsstring) : option jsstring :=
  match s with
  | [] => None
  | c :: r =>
      match (if isDot c then afterUploads r else None) with
      | Some rest => Some rest
      | None => uploadsHere (c :: r)
      end
  end.

(** [filePath.replace(/^.*[\\/]uploads[\\/]/, '')]. *)
Definition relativePath (filePath : jsstring) : jsstring :=
  match afterUploads filePath with
  | Some rest => rest
  | None => filePath
  end.

(** [getFileUrl]; the paths of a project are optional, an absent or empty
    one gives the empty string. *)
Definition getFileUrl (filePath : option jsstring) : jsstring :=
  match filePath with
  | Some (c :: r) => lit "http://localhost:8000/uploads/" ++ relativePath (c :: r)
  | _ => []
  end.

(** An entry of [processingSteps]: step, range and message. *)
Record Step := {
  step : string;
  lo : N;
  hi : N;
  message : string
}.

Definition processingSteps : list Step :=
  [ {| step := "Initializing"; lo := 0; hi := 5;
       message := "Starting Wav2Lip processing..." |};
    {| step := "Model Selection"; lo := 5; hi := 15;
       message := "Selecting model checkpoint..." |};
    {| step := "Video Optimization"; lo := 15; hi := 25;
       message := "Optimizing video for processing..." |};
    {| step := "Audio Preparation"; lo := 25; hi := 35;
       message := "Preparing audio (converting to WAV)..." |};
    {| step := "Wav2Lip Inference"; lo := 35; hi := 90;
       message := "Running Wav2Lip inference (auto-optimized)..." |};
    {| step := "Reading Frames"; lo := 50; hi := 60;
       message := "Reading video frames..." |};
    {| step := "Processing Audio"; lo := 60; hi := 70;
       message := "Processing audio chunks..." |};
    {| step := "Generating Lip Sync"; lo := 70; hi := 85;
       message := "Generating lip sync frames..." |};
    {| step := "Finalizing"; lo := 85; hi := 100;
       message := "Finalizing output video..." |} ].

(** [getCurrentStep], for a progress that is a whole number: the first
    entry whose closed range holds the value, else the fallback, of which
    only step and message exist. *)
Definition getCurrentStep (progressValue : N) : string * string :=
  match List.find (fun s => (lo s <=? progressValue) && (progressValue <=? hi s))
          processingSteps with
  | Some s => (step s, message s)
  | None => ("Processing", "Processing in progress...")
  end.

(** The step list drawn under the progress bar, with its ranges. *)
Definition stepList : list (string * N * N) :=
  [ ("Initialization", 0, 10); ("Model Loading", 10, 20);
    ("Video Optimization", 20, 35); ("Audio Preparation", 35, 45);
    ("Wav2Lip Inference", 45, 95); ("Finalization", 95, 100) ].

(** [progress >= range[0] && progress < range[1]]: the [Active] mark. *)
Definition isActive (progress : N) (s : string * N * N) : bool :=
  (s.1.2 <=? progress) && (progress <? s.2).

(** [progress >= range[1]]: the [Complete] mark. *)
Definition isComplete (progress : N) (s : string * N * N) : bool :=
  s.2 <=? progress.

End ProjectView.

(** ** Loading the dashboard, and its runs *)

Module DashboardRun.

Import JS Project Promise Dashboard.

(** One iteration of the [forEach] of [fetchProjects]: only an unfinished
    project with a message is looked at. *)
Definition recordUnfinished (acc : gmap N (N * jsstring)) (project : Project.t)
  : gmap N (N * jsstring) :=
  if isUnfinished (Project.status project) then recordProgress acc project
  else acc.

(** [fetchProjects()] after [getProjects()] has resolved with [data]. *)
Definition fetchProjectsFulfilled (data : list Project.t) (s : State) : State :=
  {| store := projectSlice.fetchProjectsSuccess data (store s);
     projectProgress := fold_left recordUnfinished data ∅;
     intervals := intervals s; cleanup := cleanup s;
     nextHandle := nextHandle s; console := console s;
     renders := S (renders s) |}.

(** [dispatch(action)] on the project slice, from this or another page. *)
Definition dispatch (r : projectSlice.ProjectState -> projectSlice.ProjectState)
  (s : State) : State :=
  {| store := r (store s); projectProgress := projectProgress s;
     intervals := intervals s; cleanup := cleanup s;
     nextHandle := nextHandle s; console := console s;
     renders := renders s |}.

(** What can happen to a mounted dashboard: the list is loaded or the store
    is changed, after which the polling effect runs again (React runs it
    when [projects] is a new array, also one with the old content); the
    store is changed by a reducer that leaves [projects] alone, and the
    effect does not run; or a tick settles, of a live timer or of one that
    has been cleared while its requests were in flight. *)
Inductive step : State -> State -> Prop :=
  | step_loaded data s :
      step s (pollingEffect (fetchProjectsFulfilled data s))
  | step_dispatch r s :
      step s (pollingEffect (dispatch r s))
  | step_dispatch_same r s :
      projectSlice.projects (r (store s)) = projectSlice.projects (store s) ->
      step s (dispatch r s)
  | step_tick ps rs s :
      step s (tickSettled ps rs s).

(** The states of a dashboard mounted over the store [st]. *)
Inductive reachable (st : projectSlice.ProjectState) : State -> Prop :=
  | reach_mount : reachable st (pollingEffect (initialState st))
  | reach_step s s' : reachable st s -> step s s' -> reachable st s'.

(** The timers agree with the list of the store: one timer over the
    unfinished projects, held by the cleanup, or none when there is no
    unfinished project. *)
Definition settled (s : State) : Prop :=
  match cleanup s with
  | Some h =>
      intervals s
      = {[h := processingProjects (projectSlice.projects (store s))]}
      /\ processingProjects (projectSlice.projects (store s)) <> []
  | None =>
      intervals s = ∅
      /\ processingProjects (projectSlice.projects (store s)) = []
  end.

End DashboardRun.

(** ** Runs of the project page *)

Module ProjectDetailRun.

Import Project Promise ProjectDetailRef.

(** What can happen to a mounted project page (the revision with the ref):
    the effect runs, a request settles, a delayed task runs, a handler is
    called, the cleanup runs, the store is changed from elsewhere.  A
    settled tick need not belong to a live timer: its request can have been
    in flight when the timer was cleared. *)
Inductive step : State -> State -> Prop :=
  | step_effect i s :
      step s (effect i s)
  | step_fetchProjectSettled c r s :
      step s (fetchProjectSettled c r s)
  | step_tickFired h c s s' :
      tickFired h s = Some (c, s') -> step s s'
  | step_tickSettled h c r s :
      step s (tickSettled h c r s)
  | step_handleStartProcessingSettled c r s :
      step s (handleStartProcessingSettled c r s)
  | step_startPollingTask c s :
      step s (snd (startPollingTask c s))
  | step_handleDelete p s :
      step s (handleDelete p s)
  | step_handleDeleteSettled p r s :
      step s (handleDeleteSettled p r s)
  | step_effectCleanup s :
      step s (effectCleanup s)
  | step_dispatch r s :
      step s (dispatch r s).

Inductive reachable (st : projectSlice.ProjectState) : State -> Prop :=
  | reach_initial : reachable st (initialState st)
  | reach_step s s' : reachable st s -> step s s' -> reachable st s'.

(** Between two events no write is pending, the handle the ref holds
    belongs to a live timer, and live handles are below the next one. *)
Definition consistent (s : State) : Prop :=
  dirty s = false
  /\ (forall h, pollingIntervalRef s = Some h -> is_Some (intervals s !! h))
  /\ (forall h, is_Some (intervals s !! h) -> h < nextHandle s).

End ProjectDetailRun.

(** * Proof tactics *)

(** Unfolding of the callbacks and setters, and computation of the record
    projections through the state primitives, for each revision of the
    project page. *)

Ltac ref_unfold :=
  unfold ProjectDetailRef.tickSettled, ProjectDetailRef.tickTerminal,
    ProjectDetailRef.tickUpdate, ProjectDetailRef.pollForUpdates,
    ProjectDetailRef.setStatus,
    ProjectDetailRef.setProgress, ProjectDetailRef.setCurrentStep,
    ProjectDetailRef.setError, ProjectDetailRef.setLoading,
    ProjectDetailRef.setDeleting, ProjectDetailRef.setProcessing,
    ProjectDetailRef.setShowDeleteDialog, ProjectDetailRef.setDeleteSuccess,
    ProjectDetailRef.setDeletedProjectName in *.

Ltac ref_frames :=
  cbn [ProjectDetailRef.cells ProjectDetailRef.store
       ProjectDetailRef.pollingIntervalRef ProjectDetailRef.intervals
       ProjectDetailRef.timeouts ProjectDetailRef.nextHandle
       ProjectDetailRef.console ProjectDetailRef.dirty ProjectDetailRef.setCalls
       ProjectDetailRef.write
       ProjectDetailRef.flush ProjectDetailRef.print ProjectDetailRef.setRef
       ProjectDetailRef.clearInterval ProjectDetailRef.setInterval
       ProjectDetailRef.setTimeout ProjectDetailRef.dispatch
       ProjectDetailRef.loading ProjectDetailRef.error ProjectDetailRef.deleting
       ProjectDetailRef.status ProjectDetailRef.progress
       ProjectDetailRef.currentStep ProjectDetailRef.processing
       ProjectDetailRef.showDeleteDialog ProjectDetailRef.deleteSuccess
       ProjectDetailRef.deletedProjectName fst snd] in *.

(** Equations between records of cells, split into their fields. *)
Ltac cells_eqs :=
  repeat match goal with
         | H : {| ProjectDetailRef.loading := _ |} = _ |- _ =>
             injection H; clear H; intros; subst
         end.

Ltac detail_unfold :=
  unfold ProjectDetail.tickSettled, ProjectDetail.tickTerminal,
    ProjectDetail.tickUpdate, ProjectDetail.pollForUpdates,
    ProjectDetail.setStatus, ProjectDetail.setProgress,
    ProjectDetail.setCurrentStep, ProjectDetail.setError,
    ProjectDetail.setProcessing, ProjectDetail.setPollingInterval in *.

Ltac detail_frames :=
  cbn [ProjectDetail.cells ProjectDetail.intervals ProjectDetail.nextHandle
       ProjectDetail.console ProjectDetail.dirty ProjectDetail.setCalls
       ProjectDetail.write ProjectDetail.flush ProjectDetail.print
       ProjectDetail.clearInterval ProjectDetail.setInterval
       ProjectDetail.loading ProjectDetail.error ProjectDetail.deleting
       ProjectDetail.status ProjectDetail.progress ProjectDetail.currentStep
       ProjectDetail.processing ProjectDetail.showDeleteDialog
       ProjectDetail.pollingInterval fst snd] in *.

Ltac detail_eqs :=
  repeat match goal with
         | H : {| ProjectDetail.loading := _ |} = _ |- _ =>
             injection H; clear H; intros; subst
         end.

(** * Properties *)

(** ** The progress pattern *)

Section Pattern.

Import JS.

Lemma parseInt_from (ds : jsstring) (acc : N) :
  fold_left (fun a c => 10 * a + (c - 48)) ds acc
  = acc * 10 ^ N.of_nat (length ds) + decimal ds.
Proof.
  revert acc. induction ds as [|d r IH]; intros acc; simpl.
  - lia.
  - rewrite IH. rewrite Nat2N.inj_succ, N.pow_succ_r'. lia.
Qed.

Lemma decimal_bound (ds : jsstring) :
  Forall (fun c => isDigit c = true) ds ->
  decimal ds < 10 ^ N.of_nat (length ds).
Proof.
  induction 1 as [|d r Hd _ IH]; simpl.
  - lia.
  - unfold isDigit in Hd. apply andb_true_iff in Hd as [_ Hd].
    apply N.leb_le in Hd.
    rewrite Nat2N.inj_succ, N.pow_succ_r'.
    assert (d - 48 <= 9) by lia. nia.
Qed.

(** A run of at most 15 digits denotes a number below 2^53. *)
Lemma decimal_safe (ds : jsstring) :
  Forall (fun c => isDigit c = true) ds -> (length ds <= 15)%nat ->
  decimal ds < 2 ^ 53.
Proof.
  intros Hdig Hlen. pose proof (decimal_bound ds Hdig) as Hb.
  assert (10 ^ N.of_nat (length ds) <= 10 ^ 15).
  { apply N.pow_le_mono_r; lia. }
  assert (10 ^ 15 < 2 ^ 53) by (vm_compute; reflexivity).
  lia.
Qed.

(** Numbers below 2^53 are their own Number value. *)
Lemma toDouble_exact (n : N) : n < 2 ^ 53 -> toDouble n = n.
Proof.
  intros Hn. unfold toDouble.
  assert (N.size n <= 53) as Hs.
  { destruct (N.eq_dec n 0) as [->|Hz]; [simpl; lia|].
    rewrite N.size_log2 by exact Hz.
    apply N.le_succ_l. apply N.log2_lt_pow2; lia. }
  replace (N.size n - 53) with 0 by lia. reflexivity.
Qed.

Lemma parseInt_decimal (ds : jsstring) :
  Forall (fun c => isDigit c = true) ds -> (length ds <= 15)%nat ->
  parseInt ds = decimal ds.
Proof.
  intros Hdig Hlen. unfold parseInt. rewrite parseInt_from.
  rewrite N.mul_0_l, N.add_0_l.
  apply toDouble_exact, decimal_safe; assumption.
Qed.

(** Whatever its length, a run of digits is read as the Number value of
    the integer it denotes. *)
Lemma parseInt_toDouble (ds : jsstring) : parseInt ds = toDouble (decimal ds).
Proof.
  unfold parseInt. rewrite parseInt_from, N.mul_0_l, N.add_0_l. reflexivity.
Qed.

Lemma stripLiteral_app (l s : jsstring) : stripLiteral l (l ++ s) = Some s.
Proof.
  induction l as [|a l IH]; simpl; [reflexivity|].
  rewrite N.eqb_refl. exact IH.
Qed.

(** A greedy run stops exactly where the class stops. *)
Lemma span_app (p : N -> bool) (a rest : jsstring) :
  Forall (fun c => p c = true) a ->
  (rest = [] \/ exists c r, rest = c :: r /\ p c = false) ->
  span p (a ++ rest) = (a, rest).
Proof.
  intros Ha Hrest. induction Ha as [|c a Hc _ IH]; simpl.
  - destruct Hrest as [-> | (c & r & -> & Hc)]; simpl; [reflexivity|].
    rewrite Hc. reflexivity.
  - rewrite Hc, IH. reflexivity.
Qed.

(** The pattern at the start of a message: the groups are the whole digit
    run and the whole rest of the line. *)
Lemma matchHere_pattern (ds desc rest : jsstring) :
  ds <> [] -> Forall (fun c => isDigit c = true) ds ->
  desc <> [] -> Forall (fun c => isLineTerminator c = false) desc ->
  (rest = [] \/ exists c r, rest = c :: r /\ isLineTerminator c = true) ->
  matchHere (lit "Progress " ++ ds ++ lit "%: " ++ desc ++ rest)
  = Some (ds, desc).
Proof.
  intros Hds Hdig Hdesc Hline Hrest. unfold matchHere.
  rewrite stripLiteral_app.
  rewrite (span_app isDigit ds); [|exact Hdig|right; eexists _, _; split; reflexivity].
  destruct ds as [|d ds']; [congruence|].
  rewrite stripLiteral_app.
  rewrite (span_app isDot desc rest).
  - destruct desc; [congruence|reflexivity].
  - eapply Forall_impl; [exact Hline|]. intros c Hc. simpl in Hc.
    unfold isDot. rewrite Hc. reflexivity.
  - destruct Hrest as [-> | (c & r & -> & Hc)]; [left; reflexivity|].
    right. exists c, r. split; [reflexivity|]. unfold isDot. rewrite Hc.
    reflexivity.
Qed.

Lemma progressMatch_here (s : jsstring) (g : jsstring * jsstring) :
  matchHere s = Some g -> progressMatch s = Some g.
Proof. intros H. destruct s; cbn [progressMatch]; rewrite H; reflexivity. Qed.

(** The first start index at which the pattern matches wins. *)
Lemma progressMatch_leftmost (pre m : jsstring) (g : jsstring * jsstring) :
  (forall k, (k < length pre)%nat -> matchHere (drop k (pre ++ m)) = None) ->
  matchHere m = Some g ->
  progressMatch (pre ++ m) = Some g.
Proof.
  induction pre as [|c pre IH]; intros Hno Hm.
  - apply progressMatch_here. exact Hm.
  - change (progressMatch ((c :: pre) ++ m)) with
      (match matchHere (c :: pre ++ m) with
       | Some g => Some g
       | None => progressMatch (pre ++ m)
       end).
    pose proof (Hno 0%nat ltac:(simpl; lia)) as H0. simpl in H0.
    simpl. rewrite H0.
    apply IH; [|exact Hm].
    intros k Hk. apply (Hno (S k)). simpl. lia.
Qed.

End Pattern.

(** C1 (as amended).  For every message in which the first occurrence of
    the pattern [Progress <N>%: <description>] is made of the digit run [ds]
    (at most 15 digits) and of [desc], the rest of its line, the parser
    returns the decimal value of [ds], which is an exact JavaScript integer,
    and [desc] itself, character for character: nothing is trimmed. *)
Theorem C1_parse_first_match (pre ds desc rest : JS.jsstring) :
  ds <> [] -> Forall (fun c => JS.isDigit c = true) ds ->
  (length ds <= 15)%nat ->
  desc <> [] -> Forall (fun c => JS.isLineTerminator c = false) desc ->
  (rest = [] \/ exists c r, rest = c :: r /\ JS.isLineTerminator c = true) ->
  (forall k, (k < length pre)%nat ->
     JS.matchHere
       (drop k (pre ++ JS.lit "Progress " ++ ds ++ JS.lit "%: " ++ desc ++ rest))
     = None) ->
  JS.parseProgress
    (pre ++ JS.lit "Progress " ++ ds ++ JS.lit "%: " ++ desc ++ rest)
  = Some (JS.decimal ds, desc)
  /\ JS.decimal ds < 2 ^ 53.
Proof.
  intros Hds Hdig Hlen Hdesc Hline Hrest Hno. split.
  - unfold JS.parseProgress.
    rewrite (progressMatch_leftmost pre _ (ds, desc) Hno).
    + rewrite parseInt_decimal by assumption. reflexivity.
    + apply matchHere_pattern; assumption.
  - apply decimal_safe; assumption.
Qed.

Lemma C1_parse_first_match_witness :
  JS.parseProgress (JS.lit "Job 7: Progress 10%: Initializing")
  = Some (10, JS.lit "Initializing")
  /\ JS.decimal (JS.lit "10") < 2 ^ 53.
Proof.
  pose proof (C1_parse_first_match (JS.lit "Job 7: ") (JS.lit "10")
                (JS.lit "Initializing") []) as H.
  apply H.
  - discriminate.
  - repeat constructor.
  - simpl. lia.
  - discriminate.
  - repeat constructor.
  - left. reflexivity.
  - intros k Hk.
    do 7 (destruct k as [|k]; [reflexivity|]). simpl in Hk. lia.
Defined.

(** C1, the claim as stated, fails: a description that ends in a space is
    returned with that space, not trimmed. *)
Lemma C1_trim_counterexample :
  let msg := JS.lit "Progress 10%: Initializing " in
  msg = JS.lit "Progress " ++ JS.lit "10" ++ JS.lit "%: "
          ++ JS.lit "Initializing " ++ []
  /\ JS.parseProgress msg = Some (10, JS.lit "Initializing ")
  /\ JS.parseProgress msg <> Some (10, JS.trim (JS.lit "Initializing ")).
Proof.
  split; [reflexivity|]. split; [reflexivity|].
  vm_compute. intros H. discriminate H.
Qed.

(** ** The two revisions of the project page *)

Section RefTick.

Import JS Project Promise ProjectDetailRef.

(** What a settled tick does to the timers: a terminal status removes the
    tick's own timer, anything else leaves the timers alone. *)
Lemma Ref_tick_intervals interval c p s :
  intervals (tickSettled interval c (Fulfilled p) s)
  = if isTerminal (Project.status p) then delete interval (intervals s)
    else intervals s.
Proof.
  ref_unfold.
  destruct (Project.status p), (status_message p) as [[|m sg]|];
    try destruct (parseProgress (m :: sg)) as [[n st]|];
    repeat case_decide; ref_frames; reflexivity.
Qed.

(** A tick never touches the project slice of the store. *)
Lemma Ref_tick_store interval c r s :
  store (tickSettled interval c r s) = store s.
Proof.
  destruct r as [p|e]; [ref_unfold|ref_unfold; ref_frames; reflexivity].
  destruct (Project.status p), (status_message p) as [[|m sg]|];
    try destruct (parseProgress (m :: sg)) as [[n st]|];
    repeat case_decide; ref_frames; reflexivity.
Qed.

Lemma Ref_completed_cells interval c p s :
  Project.status p = completed ->
  let s' := tickSettled interval c (Fulfilled p) s in
  progress (cells s') = 100
  /\ currentStep (cells s') = lit "Processing completed successfully!".
Proof.
  intros Hp s'. subst s'. ref_unfold. rewrite Hp. ref_frames.
  split; reflexivity.
Qed.

Lemma Ref_failed_cells interval c p s :
  Project.status p = failed ->
  let s' := tickSettled interval c (Fulfilled p) s in
  progress (cells s') = progress (cells s)
  /\ currentStep (cells s')
     = orElse (status_message p) (lit "Processing failed").
Proof.
  intros Hp s'. subst s'. ref_unfold. rewrite Hp.
  destruct (status_message p) as [[|m sg]|]; case_decide; ref_frames;
    split; reflexivity.
Qed.

(** The stored status follows the fetched one unless the fetched one equals
    the status of the closure, in which case the setter is skipped. *)
Lemma Ref_tick_status interval c p s :
  status (cells (tickSettled interval c (Fulfilled p) s))
  = if decide (Some (Project.status p) = c_status c) then status (cells s)
    else Some (Project.status p).
Proof.
  ref_unfold.
  destruct (Project.status p), (status_message p) as [[|m sg]|];
    try destruct (parseProgress (m :: sg)) as [[n st]|];
    repeat case_decide; ref_frames; try reflexivity; congruence.
Qed.

(** The cells after a tick depend on the cells before it only. *)
Lemma Ref_tick_cells_ext interval c r s1 s2 :
  cells s1 = cells s2 ->
  cells (tickSettled interval c r s1) = cells (tickSettled interval c r s2).
Proof.
  intros E. destruct r as [p|e]; [ref_unfold|ref_unfold; ref_frames; exact E].
  destruct (Project.status p), (status_message p) as [[|m sg]|];
    try destruct (parseProgress (m :: sg)) as [[n st]|];
    repeat case_decide; ref_frames; rewrite ?E; reflexivity.
Qed.



End RefTick.

Section DetailTick.

Import JS Project Promise ProjectDetail.

Lemma Detail_tick_intervals interval p s :
  intervals (tickSettled interval (Fulfilled p) s)
  = if isTerminal (Project.status p) then delete interval (intervals s)
    else intervals s.
Proof.
  detail_unfold.
  destruct (Project.status p), (status_message p) as [[|m sg]|];
    try destruct (parseProgress (m :: sg)) as [[n st]|];
    detail_frames; reflexivity.
Qed.

Lemma Detail_completed_cells interval p s :
  Project.status p = completed ->
  let s' := tickSettled interval (Fulfilled p) s in
  progress (cells s') = 100
  /\ currentStep (cells s') = lit "Processing completed successfully!".
Proof.
  intros Hp s'. subst s'. detail_unfold. rewrite Hp. detail_frames.
  split; reflexivity.
Qed.

Lemma Detail_failed_cells interval p s :
  Project.status p = failed ->
  let s' := tickSettled interval (Fulfilled p) s in
  progress (cells s') = progress (cells s)
  /\ currentStep (cells s')
     = orElse (status_message p) (lit "Processing failed").
Proof.
  intros Hp s'. subst s'. detail_unfold. rewrite Hp.
  destruct (status_message p) as [[|m sg]|]; detail_frames;
    split; reflexivity.
Qed.

(** This revision always stores the fetched status. *)
Lemma Detail_tick_status interval p s :
  status (cells (tickSettled interval (Fulfilled p) s))
  = Some (Project.status p).
Proof.
  detail_unfold.
  destruct (Project.status p), (status_message p) as [[|m sg]|];
    try destruct (parseProgress (m :: sg)) as [[n st]|];
    detail_frames; reflexivity.
Qed.



End DetailTick.

(** ** Completed and failed ticks *)

(** C6.  Whenever a tick of the project page receives a project whose
    status is [completed], the stored progress becomes 100 and the stored
    step becomes the fixed completion text, whatever the status message,
    the closure of the timer and the state before the tick are.  Both
    revisions of the page. *)
Theorem C6_completed_forces_100 :
  (forall interval c p s,
     Project.status p = Project.completed ->
     let s' := ProjectDetailRef.tickSettled interval c (Promise.Fulfilled p) s in
     ProjectDetailRef.progress (ProjectDetailRef.cells s') = 100
     /\ ProjectDetailRef.currentStep (ProjectDetailRef.cells s')
        = JS.lit "Processing completed successfully!")
  /\
  (forall interval p s,
     Project.status p = Project.completed ->
     let s' := ProjectDetail.tickSettled interval (Promise.Fulfilled p) s in
     ProjectDetail.progress (ProjectDetail.cells s') = 100
     /\ ProjectDetail.currentStep (ProjectDetail.cells s')
        = JS.lit "Processing completed successfully!").
Proof.
  split.
  - intros interval c p s Hp. apply Ref_completed_cells. exact Hp.
  - intros interval p s Hp. apply Detail_completed_cells. exact Hp.
Qed.

Lemma C6_completed_forces_100_witness :
  let p := {| Project.id := 7; Project.name := JS.lit "clip";
              Project.status := Project.completed;
              Project.status_message := Some (JS.lit "Progress 40%: Encoding");
              Project.error_message := None |} in
  let c := ProjectDetailRef.closureOf 7
             (ProjectDetailRef.initialState projectSlice.initialState) in
  let s' := ProjectDetailRef.tickSettled 1 c (Promise.Fulfilled p)
              (ProjectDetailRef.initialState projectSlice.initialState) in
  Project.status p = Project.completed
  /\ ProjectDetailRef.progress (ProjectDetailRef.cells s') = 100
  /\ ProjectDetailRef.currentStep (ProjectDetailRef.cells s')
     = JS.lit "Processing completed successfully!".
Proof.
  intros p c s'. split; [reflexivity|].
  apply (proj1 C6_completed_forces_100). reflexivity.
Defined.

Section Failed.

Import JS Project Promise.

Lemma Ref_failed_run interval c (ps : list Project.t) s :
  Forall (fun p => Project.status p = failed) ps ->
  ProjectDetailRef.progress (ProjectDetailRef.cells
    (fold_left
       (fun s p => ProjectDetailRef.tickSettled interval c (Fulfilled p) s)
       ps s))
  = ProjectDetailRef.progress (ProjectDetailRef.cells s).
Proof.
  intros H. revert s. induction H as [|p ps Hp _ IH]; intros s; simpl.
  - reflexivity.
  - rewrite IH. apply Ref_failed_cells. exact Hp.
Qed.

Lemma Detail_failed_run interval (ps : list Project.t) s :
  Forall (fun p => Project.status p = failed) ps ->
  ProjectDetail.progress (ProjectDetail.cells
    (fold_left
       (fun s p => ProjectDetail.tickSettled interval (Fulfilled p) s) ps s))
  = ProjectDetail.progress (ProjectDetail.cells s).
Proof.
  intros H. revert s. induction H as [|p ps Hp _ IH]; intros s; simpl.
  - reflexivity.
  - rewrite IH. apply Detail_failed_cells. exact Hp.
Qed.

End Failed.

(** C9.  When a tick of the project page receives a project whose status
    is [failed], the stored step becomes the status message, or the text
    [Processing failed] when the message is absent (or empty, which
    JavaScript's [||] treats alike), and the stored progress is left as it
    was; after any number of such ticks the progress is still the one held
    before the first.  Both revisions of the page. *)
Theorem C9_failed_keeps_percent :
  (forall interval c p s,
     Project.status p = Project.failed ->
     let s' := ProjectDetailRef.tickSettled interval c (Promise.Fulfilled p) s in
     ProjectDetailRef.progress (ProjectDetailRef.cells s')
     = ProjectDetailRef.progress (ProjectDetailRef.cells s)
     /\ ProjectDetailRef.currentStep (ProjectDetailRef.cells s')
        = match Project.status_message p with
          | Some (m :: sg) => m :: sg
          | _ => JS.lit "Processing failed"
          end)
  /\
  (forall interval c ps s,
     Forall (fun p => Project.status p = Project.failed) ps ->
     ProjectDetailRef.progress (ProjectDetailRef.cells
       (fold_left
          (fun s p =>
             ProjectDetailRef.tickSettled interval c (Promise.Fulfilled p) s)
          ps s))
     = ProjectDetailRef.progress (ProjectDetailRef.cells s))
  /\
  (forall interval p s,
     Project.status p = Project.failed ->
     let s' := ProjectDetail.tickSettled interval (Promise.Fulfilled p) s in
     ProjectDetail.progress (ProjectDetail.cells s')
     = ProjectDetail.progress (ProjectDetail.cells s)
     /\ ProjectDetail.currentStep (ProjectDetail.cells s')
        = match Project.status_message p with
          | Some (m :: sg) => m :: sg
          | _ => JS.lit "Processing failed"
          end)
  /\
  (forall interval ps s,
     Forall (fun p => Project.status p = Project.failed) ps ->
     ProjectDetail.progress (ProjectDetail.cells
       (fold_left
          (fun s p => ProjectDetail.tickSettled interval (Promise.Fulfilled p) s)
          ps s))
     = ProjectDetail.progress (ProjectDetail.cells s)).
Proof.
  split; [|split; [|split]].
  - intros interval c p s Hp. apply Ref_failed_cells. exact Hp.
  - intros interval c ps s H. apply Ref_failed_run. exact H.
  - intros interval p s Hp. apply Detail_failed_cells. exact Hp.
  - intros interval ps s H. apply Detail_failed_run. exact H.
Qed.

Lemma C9_failed_keeps_percent_witness :
  let p := {| Project.id := 7; Project.name := JS.lit "clip";
              Project.status := Project.failed;
              Project.status_message := None;
              Project.error_message := None |} in
  let s0 := ProjectDetail.setProgress 40 ProjectDetail.initialState in
  let s' := ProjectDetail.tickSettled 1 (Promise.Fulfilled p) s0 in
  Project.status p = Project.failed
  /\ ProjectDetail.progress (ProjectDetail.cells s') = 40
  /\ ProjectDetail.currentStep (ProjectDetail.cells s')
     = JS.lit "Processing failed".
Proof.
  intros p s0 s'. split; [reflexivity|].
  apply (proj1 (proj2 (proj2 C9_failed_keeps_percent))). reflexivity.
Defined.

(** ** Updates that change nothing *)

Section Quiet.

Import JS Project Promise.




End Quiet.




(** ** Stopping on a terminal status *)

Section Terminal.

Import JS Project Promise.

(** A tick that receives a terminal status removes its own timer, which can
    then never fire again; in the revision that stores the status without a
    guard the stored status is the terminal one. *)
Lemma Detail_terminal_tick interval p s :
  isTerminal (Project.status p) = true ->
  let s' := ProjectDetail.tickSettled interval (Fulfilled p) s in
  ProjectDetail.status (ProjectDetail.cells s') = Some (Project.status p)
  /\ ProjectDetail.tickFired interval s' = None.
Proof.
  intros Ht s'. subst s'. split.
  - apply Detail_tick_status.
  - unfold ProjectDetail.tickFired.
    rewrite Detail_tick_intervals, Ht, lookup_delete_eq. reflexivity.
Qed.

(** The same for the revision with guarded setters: the timer is removed,
    but the terminal status is stored only when it differs from the status
    the closure of the timer holds. *)
Lemma Ref_terminal_tick interval c p s :
  isTerminal (Project.status p) = true ->
  let s' := ProjectDetailRef.tickSettled interval c (Fulfilled p) s in
  ProjectDetailRef.tickFired interval s' = None
  /\ (ProjectDetailRef.c_status c <> Some (Project.status p) ->
      ProjectDetailRef.status (ProjectDetailRef.cells s')
      = Some (Project.status p))
  /\ (ProjectDetailRef.c_status c = Some (Project.status p) ->
      ProjectDetailRef.status (ProjectDetailRef.cells s')
      = ProjectDetailRef.status (ProjectDetailRef.cells s)).
Proof.
  intros Ht s'. subst s'. split; [|split].
  - unfold ProjectDetailRef.tickFired.
    rewrite Ref_tick_intervals, Ht, lookup_delete_eq. reflexivity.
  - intros Hc. rewrite Ref_tick_status. rewrite decide_False; congruence.
  - intros Hc. rewrite Ref_tick_status. rewrite decide_True; congruence.
Qed.

End Terminal.

(** C4, the failing run.  A page shows a project that has failed; the user
    starts processing again, so [handleStartProcessing] of that render,
    whose closure holds the status [failed], stores [processing] and starts
    the poller one second later.  The job fails again and the first tick
    receives [failed]: the guard compares it with the status of the closure,
    finds them equal and skips [setStatus].  The timer is cleared while the
    stored status still says [processing]. *)
Theorem C4_stale_closure_hides_terminal_status :
  let failedProject :=
    {| Project.id := 7; Project.name := JS.lit "clip";
       Project.status := Project.failed;
       Project.status_message := Some (JS.lit "CUDA out of memory");
       Project.error_message := None |} in
  let s0 := ProjectDetailRef.initialState projectSlice.initialState in
  let s1 := ProjectDetailRef.fetchProjectSettled
              (ProjectDetailRef.closureOf 7 s0)
              (Promise.Fulfilled failedProject) s0 in
  let c := ProjectDetailRef.closureOf 7 s1 in
  let s2 := ProjectDetailRef.handleStartProcessingSettled c
              (Promise.Fulfilled tt) s1 in
  let '(interval, s3) := ProjectDetailRef.startPollingTask c s2 in
  let s4 := ProjectDetailRef.tickSettled interval c
              (Promise.Fulfilled failedProject) s3 in
  ProjectDetailRef.c_status c = Some Project.failed
  /\ ProjectDetailRef.status (ProjectDetailRef.cells s3)
     = Some Project.processing
  /\ ProjectDetailRef.tickFired interval s3 <> None
  /\ ProjectDetailRef.tickFired interval s4 = None
  /\ ProjectDetailRef.pollingIntervalRef s4 = None
  /\ ProjectDetailRef.status (ProjectDetailRef.cells s4)
     = Some Project.processing
  /\ ProjectDetailRef.currentStep (ProjectDetailRef.cells s4)
     = JS.lit "CUDA out of memory".
Proof. vm_compute. repeat split; try reflexivity. discriminate. Qed.

(** ** Starting the poller twice *)

(** C3, the failing runs.  [pollForUpdates] has no guard: called twice in
    a row it registers two timers and remembers only the second, so the
    cleanup of the effect clears the second and leaves the first running.
    In the revision with a handle cell this happens from the page itself:
    polling has been started, a tick receives [pending] and stores it, the
    start button is shown again, and a second click starts a second timer
    beside the first.  Only the click handler of the refresh button looks at
    the handle before it calls [pollForUpdates]. *)
Theorem C3_second_start_adds_a_timer :
  (let s0 := ProjectDetailRef.initialState projectSlice.initialState in
   let c := ProjectDetailRef.closureOf 7 s0 in
   let '(h1, s1) := ProjectDetailRef.pollForUpdates c s0 in
   let '(h2, s2) := ProjectDetailRef.pollForUpdates c s1 in
   let s3 := ProjectDetailRef.effectCleanup s2 in
   h1 <> h2
   /\ ProjectDetailRef.tickFired h1 s2 <> None
   /\ ProjectDetailRef.tickFired h2 s2 <> None
   /\ ProjectDetailRef.pollingIntervalRef s2 = Some h2
   /\ ProjectDetailRef.tickFired h2 s3 = None
   /\ ProjectDetailRef.tickFired h1 s3 <> None)
  /\
  (let queued :=
     {| Project.id := 7; Project.name := JS.lit "clip";
        Project.status := Project.pending;
        Project.status_message := None;
        Project.error_message := None |} in
   let s0 := ProjectDetail.initialState in
   let s1 := ProjectDetail.handleStartProcessingSettled
               (ProjectDetail.closureOf 7 s0) (Promise.Fulfilled tt) s0 in
   let s2 := ProjectDetail.tickSettled 1 (Promise.Fulfilled queued) s1 in
   let s3 := ProjectDetail.handleStartProcessingSettled
               (ProjectDetail.closureOf 7 s2) (Promise.Fulfilled tt) s2 in
   ProjectDetail.tickFired 1 s1 <> None
   /\ ProjectDetail.status (ProjectDetail.cells s2) = Some Project.pending
   /\ ProjectDetail.tickFired 1 s2 <> None
   /\ ProjectDetail.tickFired 1 s3 <> None
   /\ ProjectDetail.tickFired 2 s3 <> None
   /\ ProjectDetail.pollingInterval (ProjectDetail.cells s3) = Some 2).
Proof. vm_compute. repeat split; try reflexivity; discriminate. Qed.

Section Starting.

Import Project Promise.

(** The one guarded caller: a refresh whose render already holds a handle
    starts no timer. *)
Lemma Detail_refresh_guard c p s h :
  ProjectDetail.c_pollingInterval c = Some h ->
  ProjectDetail.intervals (ProjectDetail.refreshSettled c (Fulfilled p) s)
  = ProjectDetail.intervals s.
Proof.
  intros Hc. unfold ProjectDetail.refreshSettled. rewrite Hc. detail_unfold.
  destruct (Project.status p), (status_message p) as [[|m sg]|];
    try destruct (JS.parseProgress (m :: sg)) as [[n st]|];
    detail_frames; reflexivity.
Qed.

(** [pollForUpdates] itself always adds a timer under a fresh handle. *)
Lemma Ref_pollForUpdates_adds c s :
  ProjectDetailRef.intervals s !! ProjectDetailRef.nextHandle s = None ->
  let '(h, s') := ProjectDetailRef.pollForUpdates c s in
  ProjectDetailRef.intervals s' = <[h := c]> (ProjectDetailRef.intervals s)
  /\ size (ProjectDetailRef.intervals s')
     = S (size (ProjectDetailRef.intervals s))
  /\ ProjectDetailRef.pollingIntervalRef s' = Some h.
Proof.
  intros Hfresh. ref_unfold. ref_frames.
  split; [reflexivity|]. split; [|reflexivity].
  apply map_size_insert_None. exact Hfresh.
Qed.

End Starting.

(** ** A fetch that fails *)



(** ** Deleting a project while a request is in flight *)

Section Deleting.

Import Project Promise.

Lemma deleteProject_removes (i : N) (st : projectSlice.ProjectState) :
  ~ In i (projectSlice.ids (projectSlice.deleteProject i st)).
Proof.
  unfold projectSlice.ids, projectSlice.deleteProject. simpl.
  intros H. apply in_map_iff in H as (p & Hp & Hin).
  apply filter_In in Hin as [_ Hne].
  rewrite <- Hp, N.eqb_refl in Hne. discriminate.
Qed.

Lemma deleteProject_current (i : N) (st : projectSlice.ProjectState) :
  projectSlice.currentIs i (projectSlice.deleteProject i st) = false.
Proof.
  unfold projectSlice.deleteProject, projectSlice.currentIs. simpl.
  destruct (projectSlice.currentProject st) as [p|] eqn:E; [|reflexivity].
  destruct (Project.id p =? i) eqn:Ei; [reflexivity|].
  simpl. exact Ei.
Qed.

Lemma Ref_delete_store p s :
  ProjectDetailRef.store
    (ProjectDetailRef.handleDeleteSettled p (Fulfilled tt) s)
  = projectSlice.deleteProject (Project.id p) (ProjectDetailRef.store s).
Proof. reflexivity. Qed.

(** Re-running the effect clears the timer the ref holds. *)
Lemma Ref_effect_clears_timer i s h :
  ProjectDetailRef.pollingIntervalRef s = Some h ->
  ProjectDetailRef.tickFired h (ProjectDetailRef.effect i s) = None.
Proof.
  intros Hh.
  unfold ProjectDetailRef.effect, ProjectDetailRef.effectCleanup,
    ProjectDetailRef.tickFired.
  rewrite Hh. unfold ProjectDetailRef.fetchProject.
  destruct (ProjectDetailRef.c_deleteSuccess _); ref_unfold; ref_frames;
    rewrite lookup_delete_eq; reflexivity.
Qed.

(** Requesting the deletion changes [deleteSuccess], which re-runs the
    effect: no further tick of the remembered timer is started. *)
Lemma Ref_delete_clears_timer i p s h :
  ProjectDetailRef.pollingIntervalRef s = Some h ->
  ProjectDetailRef.tickFired h
    (ProjectDetailRef.effect i (ProjectDetailRef.handleDelete (Some p) s))
  = None.
Proof. intros Hh. apply Ref_effect_clears_timer. exact Hh. Qed.

End Deleting.

(** C2 (as amended).  A settled tick of the project page never writes the
    project slice of the store, whatever it received.  So a project removed
    from the store is not back in it after a late successful result for the
    same id, and this in both orders of arrival: result after removal, or
    removal after result; nor is it the current project of the store.
    (Nothing is said here about the status, progress and step cells of the
    page: there is no check of the id before they are written.) *)
Theorem C2_late_result_never_reaches_store :
  (forall interval c r s,
     ProjectDetailRef.store (ProjectDetailRef.tickSettled interval c r s)
     = ProjectDetailRef.store s)
  /\
  (forall interval c late p s,
     let s' := ProjectDetailRef.tickSettled interval c (Promise.Fulfilled late)
                 (ProjectDetailRef.handleDeleteSettled p
                    (Promise.Fulfilled tt) s) in
     ~ In (Project.id p) (projectSlice.ids (ProjectDetailRef.store s'))
     /\ projectSlice.currentIs (Project.id p) (ProjectDetailRef.store s')
        = false)
  /\
  (forall interval c late p s,
     let s' := ProjectDetailRef.handleDeleteSettled p (Promise.Fulfilled tt)
                 (ProjectDetailRef.tickSettled interval c
                    (Promise.Fulfilled late) s) in
     ~ In (Project.id p) (projectSlice.ids (ProjectDetailRef.store s'))
     /\ projectSlice.currentIs (Project.id p) (ProjectDetailRef.store s')
        = false).
Proof.
  split; [|split].
  - intros. apply Ref_tick_store.
  - intros interval c late p s s'. subst s'.
    rewrite Ref_tick_store, Ref_delete_store.
    split; [apply deleteProject_removes | apply deleteProject_current].
  - intros interval c late p s s'. subst s'.
    rewrite Ref_delete_store.
    split; [apply deleteProject_removes | apply deleteProject_current].
Qed.

(** C2, the claim as stated, fails: the late result is not discarded.  A
    processing project is polled; a tick is in flight when the user deletes
    the project; the deletion succeeds and the project leaves the store;
    then the result of the tick arrives and is written into the status,
    progress and step cells all the same. *)
Lemma C2_late_result_is_applied :
  let p := {| Project.id := 7; Project.name := JS.lit "clip";
              Project.status := Project.processing;
              Project.status_message := None;
              Project.error_message := None |} in
  let late := {| Project.id := 7; Project.name := JS.lit "clip";
                 Project.status := Project.processing;
                 Project.status_message :=
                   Some (JS.lit "Progress 50%: Encoding");
                 Project.error_message := None |} in
  let s0 := ProjectDetailRef.initialState
              (projectSlice.fetchProjectsSuccess [p]
                 projectSlice.initialState) in
  let c := ProjectDetailRef.closureOf 7 s0 in
  let s1 := ProjectDetailRef.fetchProjectSettled c (Promise.Fulfilled p) s0 in
  match ProjectDetailRef.tickFired 1 s1 with
  | None => False
  | Some (c1, s2) =>
      let s3 := ProjectDetailRef.effect 7
                  (ProjectDetailRef.handleDelete (Some p) s2) in
      let s4 := ProjectDetailRef.handleDeleteSettled p
                  (Promise.Fulfilled tt) s3 in
      let s5 := ProjectDetailRef.tickSettled 1 c1
                  (Promise.Fulfilled late) s4 in
      ~ In 7 (projectSlice.ids (ProjectDetailRef.store s4))
      /\ ProjectDetailRef.tickFired 1 s4 = None
      /\ ProjectDetailRef.progress (ProjectDetailRef.cells s4) = 0
      /\ ProjectDetailRef.currentStep (ProjectDetailRef.cells s4) = []
      /\ ProjectDetailRef.progress (ProjectDetailRef.cells s5) = 50
      /\ ProjectDetailRef.currentStep (ProjectDetailRef.cells s5)
         = JS.lit "Encoding"
  end.
Proof.
  vm_compute. repeat split; try reflexivity. intros H. exact H.
Qed.

(** ** The dashboard's set of polled projects *)

Section Fleet.

Import Project.

Lemma processingProjects_In (projects : list Project.t) (p : Project.t) :
  In p (Dashboard.processingProjects projects)
  <-> In p projects /\ isUnfinished (Project.status p) = true.
Proof. unfold Dashboard.processingProjects. apply filter_In. Qed.

(** When the only timer that can be live is the one the last cleanup
    holds, running that cleanup leaves no timer. *)
Lemma runCleanup_empties (s : Dashboard.State) :
  (forall h, is_Some (Dashboard.intervals s !! h) -> Dashboard.cleanup s = Some h) ->
  forall h, Dashboard.intervals (Dashboard.runCleanup s) !! h = None.
Proof.
  intros Hown h. unfold Dashboard.runCleanup.
  destruct (Dashboard.cleanup s) as [h0|] eqn:Ec; simpl.
  - destruct (decide (h0 = h)) as [->|Hne].
    + apply lookup_delete_eq.
    + rewrite lookup_delete_ne by exact Hne.
      destruct (Dashboard.intervals s !! h) eqn:El; [|reflexivity].
      assert (Some h0 = Some h) by (apply Hown; rewrite El; eauto).
      congruence.
  - destruct (Dashboard.intervals s !! h) eqn:El; [|reflexivity].
    assert (@None N = Some h) by (apply Hown; rewrite El; eauto).
    discriminate.
Qed.

Lemma runCleanup_store (s : Dashboard.State) :
  Dashboard.store (Dashboard.runCleanup s) = Dashboard.store s.
Proof. unfold Dashboard.runCleanup. destruct (Dashboard.cleanup s); reflexivity. Qed.

End Fleet.

(** C8.  After one run of the dashboard's polling effect over the current
    list of projects, the projects polled by a live timer are exactly the
    projects of the list whose status is [pending] or [processing]; no
    completed or failed project is polled.  (The effect is entered with no
    live timer but the one its last cleanup holds, as React guarantees by
    running that cleanup first.) *)
Theorem C8_reconciliation_polls_unfinished (s : Dashboard.State) :
  (forall h, is_Some (Dashboard.intervals s !! h) ->
             Dashboard.cleanup s = Some h) ->
  forall p,
    Dashboard.polled (Dashboard.pollingEffect s) p
    <-> In p (projectSlice.projects (Dashboard.store s))
        /\ (Project.status p = Project.pending
            \/ Project.status p = Project.processing).
Proof.
  intros Hown p.
  assert (Project.isUnfinished (Project.status p) = true
          <-> Project.status p = Project.pending
              \/ Project.status p = Project.processing) as Hu.
  { destruct (Project.status p); simpl; split; intros H;
      try reflexivity; try discriminate; auto;
      destruct H; discriminate. }
  rewrite <- Hu, <- processingProjects_In. clear Hu.
  pose proof (runCleanup_empties s Hown) as Hempty.
  unfold Dashboard.polled, Dashboard.pollingEffect.
  rewrite runCleanup_store.
  destruct (Dashboard.processingProjects
              (projectSlice.projects (Dashboard.store s))) as [|q qs].
  - split.
    + intros (h & ps & Hl & _). rewrite Hempty in Hl. discriminate.
    + intros [].
  - cbv zeta. cbn [Dashboard.intervals]. split.
    + intros (h & ps & Hl & Hin).
      apply lookup_insert_Some in Hl as [[_ <-]|[_ Hl]]; [exact Hin|].
      rewrite Hempty in Hl. discriminate.
    + intros Hin. eexists _, _. split; [apply lookup_insert_eq|exact Hin].
Qed.

Lemma C8_reconciliation_polls_unfinished_witness :
  let A := {| Project.id := 1; Project.name := JS.lit "A";
              Project.status := Project.pending;
              Project.status_message := None;
              Project.error_message := None |} in
  let B := {| Project.id := 2; Project.name := JS.lit "B";
              Project.status := Project.completed;
              Project.status_message := None;
              Project.error_message := None |} in
  let C := {| Project.id := 3; Project.name := JS.lit "C";
              Project.status := Project.processing;
              Project.status_message := None;
              Project.error_message := None |} in
  let s := Dashboard.initialState
             (projectSlice.fetchProjectsSuccess [A; B; C]
                projectSlice.initialState) in
  Dashboard.polled (Dashboard.pollingEffect s) A
  /\ ~ Dashboard.polled (Dashboard.pollingEffect s) B
  /\ Dashboard.polled (Dashboard.pollingEffect s) C.
Proof.
  intros A B C s.
  assert (forall h, is_Some (Dashboard.intervals s !! h) ->
                    Dashboard.cleanup s = Some h) as Hown.
  { intros h [x Hx]. vm_compute in Hx. discriminate. }
  split; [|split].
  - apply (C8_reconciliation_polls_unfinished s Hown A).
    split; [simpl; auto | left; reflexivity].
  - intros H. apply (C8_reconciliation_polls_unfinished s Hown B) in H.
    destruct H as [_ [H|H]]; discriminate.
  - apply (C8_reconciliation_polls_unfinished s Hown C).
    split; [simpl; auto | right; reflexivity].
Defined.

(** ** A 401 response *)

(** C10.  Whenever a request of the client, a polling tick's
    [getProject] among them, fails with a response of status 401, the
    response interceptor removes the stored token and sends the page to
    [/login], and the request stays rejected; no later request carries a
    bearer header.  The tick of the project page that issued the request
    logs the rejection as it logs any other, and does not clear its timer
    itself: what ends the polling is the page being sent away, after which
    no timer of the document at the page's route fires. *)
Theorem C10_unauthorized_ends_session (e : Promise.Error) (b : api.Browser) :
  Promise.response_status e = Some 401 ->
  (forall A : Type,
     let '(b', r) := api.request (A := A) (Promise.Rejected e) b in
     api.localStorage b' !! "token" = None
     /\ api.href b' = "/login"
     /\ r = Promise.Rejected e
     /\ forall config, api.requestInterceptor config b' = config)
  /\
  (forall interval c s,
     let '(b', r) := api.getProject (Promise.Rejected e) b in
     let s' := ProjectDetailRef.tickSettled interval c r s in
     api.localStorage b' !! "token" = None
     /\ api.href b' = "/login"
     /\ ProjectDetailRef.console s'
        = ProjectDetailRef.console s
          ++ [Console.error "Error polling for updates:" e]
     /\ ProjectDetailRef.intervals s' = ProjectDetailRef.intervals s
     /\ forall route, route <> "/login" ->
          Document.timerFires route b' s' interval = None).
Proof.
  intros H401.
  assert (api.responseRejected e b
          = {| api.localStorage := delete "token" (api.localStorage b);
               api.href := "/login" |}) as Hr.
  { unfold api.responseRejected. rewrite decide_True by exact H401.
    reflexivity. }
  split.
  - intros A. simpl. rewrite Hr. simpl.
    split; [apply lookup_delete_eq|]. split; [reflexivity|].
    split; [reflexivity|].
    intros config. unfold api.requestInterceptor. simpl.
    rewrite lookup_delete_eq. reflexivity.
  - intros interval c s. unfold api.getProject. simpl. rewrite Hr. simpl.
    split; [apply lookup_delete_eq|]. split; [reflexivity|].
    split; [reflexivity|]. split; [reflexivity|].
    intros route Hroute. unfold Document.timerFires. simpl.
    rewrite decide_False by congruence. reflexivity.
Qed.

Lemma C10_unauthorized_ends_session_witness :
  let e := {| Promise.response_status := Some 401; Promise.detail := None;
              Promise.message :=
                Some (JS.lit "Request failed with status code 401") |} in
  let b := {| api.localStorage := {["token" := JS.lit "abc"]};
              api.href := "/projects/7" |} in
  let '(b', r) := api.getProject (Promise.Rejected e) b in
  Promise.response_status e = Some 401
  /\ api.localStorage b !! "token" = Some (JS.lit "abc")
  /\ api.localStorage b' !! "token" = None
  /\ api.href b' = "/login"
  /\ r = Promise.Rejected e.
Proof.
  pose (e := {| Promise.response_status := Some 401; Promise.detail := None;
                Promise.message :=
                  Some (JS.lit "Request failed with status code 401") |}).
  pose (b := {| api.localStorage := {["token" := JS.lit "abc"]};
                api.href := "/projects/7" |}).
  pose proof (proj1 (C10_unauthorized_ends_session e b eq_refl) Project.t) as H.
  change (let '(b', r) := api.getProject (Promise.Rejected e) b in
          Promise.response_status e = Some 401
          /\ api.localStorage b !! "token" = Some (JS.lit "abc")
          /\ api.localStorage b' !! "token" = None
          /\ api.href b' = "/login"
          /\ r = Promise.Rejected e).
  unfold api.getProject.
  destruct (api.request (Promise.Rejected e) b) as [b' r].
  destruct H as (H1 & H2 & H3 & _).
  split; [reflexivity|]. split; [reflexivity|].
  split; [exact H1|]. split; [exact H2|exact H3].
Defined.

(** * Further properties of the code *)

(** ** The progress pattern: what a result guarantees, when there is one *)

Section PatternMore.

Import JS.

Lemma stripLiteral_Some (l s r : jsstring) :
  stripLiteral l s = Some r -> s = l ++ r.
Proof.
  revert s. induction l as [|a l IH]; intros s H; simpl in H.
  - injection H as ->. reflexivity.
  - destruct s as [|c s]; [discriminate|].
    destruct (a =? c) eqn:E; [|discriminate].
    apply N.eqb_eq in E. subst c. simpl. f_equal. apply IH. exact H.
Qed.

Lemma span_spec (p : N -> bool) (s a b : jsstring) :
  span p s = (a, b) ->
  s = a ++ b /\ Forall (fun c => p c = true) a
  /\ (b = [] \/ exists c r, b = c :: r /\ p c = false).
Proof.
  revert a b. induction s as [|c s IH]; intros a b H; simpl in H.
  - injection H as <- <-. split; [reflexivity|]. split; [constructor|].
    left. reflexivity.
  - destruct (p c) eqn:Hc.
    + destruct (span p s) as [a' b'] eqn:Hs. injection H as <- <-.
      destruct (IH a' b' eq_refl) as (E & Ha & Hb).
      split; [simpl; f_equal; exact E|]. split; [constructor; assumption|].
      exact Hb.
    + injection H as <- <-. split; [reflexivity|]. split; [constructor|].
      right. exists c, s. split; [reflexivity|exact Hc].
Qed.

Lemma matchHere_Some (s ds desc : jsstring) :
  matchHere s = Some (ds, desc) ->
  exists rest,
    s = lit "Progress " ++ ds ++ lit "%: " ++ desc ++ rest
    /\ ds <> [] /\ Forall (fun c => isDigit c = true) ds
    /\ desc <> [] /\ Forall (fun c => isLineTerminator c = false) desc
    /\ (rest = [] \/ exists c r, rest = c :: r /\ isLineTerminator c = true).
Proof.
  unfold matchHere. intros H.
  destruct (stripLiteral (lit "Progress ") s) as [s1|] eqn:E1; [|discriminate].
  destruct (span isDigit s1) as [ds' s2] eqn:E2.
  destruct ds' as [|d ds']; [discriminate|].
  destruct (stripLiteral (lit "%: ") s2) as [s3|] eqn:E3; [|discriminate].
  destruct (span isDot s3) as [desc' rest] eqn:E4.
  destruct desc' as [|e desc']; [discriminate|].
  injection H as <- <-.
  apply stripLiteral_Some in E1, E3.
  apply span_spec in E2 as (E2 & Hd & _).
  apply span_spec in E4 as (E4 & He & Hr).
  exists rest. subst s s1 s2 s3.
  split; [reflexivity|]. split; [discriminate|]. split; [exact Hd|].
  split; [discriminate|]. split.
  - eapply Forall_impl; [exact He|]. intros c Hc. simpl in Hc.
    unfold isDot in Hc. destruct (isLineTerminator c); [discriminate|reflexivity].
  - destruct Hr as [->|(c & r & -> & Hc)]; [left; reflexivity|].
    right. exists c, r. split; [reflexivity|].
    unfold isDot in Hc. destruct (isLineTerminator c); [reflexivity|discriminate].
Qed.

Lemma progressMatch_Some (s : jsstring) (g : jsstring * jsstring) :
  progressMatch s = Some g ->
  exists pre m, s = pre ++ m /\ matchHere m = Some g.
Proof.
  induction s as [|c s IH]; cbn [progressMatch]; intros H.
  - exists [], []. split; [reflexivity|].
    destruct (matchHere []); [exact H|discriminate].
  - destruct (matchHere (c :: s)) as [g'|] eqn:E.
    + exists [], (c :: s). split; [reflexivity|]. congruence.
    + destruct (IH H) as (pre & m & -> & Hm).
      exists (c :: pre), m. split; [reflexivity|exact Hm].
Qed.

Lemma progressMatch_found (pre m : jsstring) :
  is_Some (matchHere m) -> is_Some (progressMatch (pre ++ m)).
Proof.
  intros [g Hg]. induction pre as [|c pre IH].
  - exists g. apply progressMatch_here. exact Hg.
  - change (is_Some (progressMatch (c :: (pre ++ m)))).
    cbn [progressMatch].
    destruct (matchHere (c :: pre ++ m)); [eauto|exact IH].
Qed.

End PatternMore.

(** X1.  Whatever the parser returns comes from the message: the message
    holds [Progress ], a non-empty run of digits, [%: ] and then the step,
    which is never empty, holds no line terminator and runs to the end of its
    line.  The percent is the decimal value of the run when the run has at
    most 15 digits, and the Number value of it, the nearest double, when it
    has at most 20. *)
Theorem X1_parse_result_comes_from_message (msg step : JS.jsstring) (n : N) :
  JS.parseProgress msg = Some (n, step) ->
  exists pre ds rest,
    msg = pre ++ JS.lit "Progress " ++ ds ++ JS.lit "%: " ++ step ++ rest
    /\ ds <> [] /\ Forall (fun c => JS.isDigit c = true) ds
    /\ ((length ds <= 15)%nat -> n = JS.decimal ds)
    /\ ((length ds <= 20)%nat -> n = JS.toDouble (JS.decimal ds))
    /\ step <> [] /\ Forall (fun c => JS.isLineTerminator c = false) step
    /\ (rest = [] \/ exists c r, rest = c :: r /\ JS.isLineTerminator c = true).
Proof.
  unfold JS.parseProgress. intros H.
  destruct (JS.progressMatch msg) as [[ds desc]|] eqn:E; [|discriminate].
  injection H as <- <-.
  apply progressMatch_Some in E as (pre & m & -> & Hm).
  apply matchHere_Some in Hm as (rest & -> & H1 & H2 & H3 & H4 & H5).
  exists pre, ds, rest.
  split; [reflexivity|]. split; [exact H1|]. split; [exact H2|].
  split; [intros Hlen; apply parseInt_decimal; assumption|].
  split; [intros _; apply parseInt_toDouble|].
  split; [exact H3|]. split; [exact H4|exact H5].
Qed.

Lemma X1_parse_result_comes_from_message_witness :
  exists pre ds rest,
    JS.lit "Job 7: Progress 10%: Initializing"
    = pre ++ JS.lit "Progress " ++ ds ++ JS.lit "%: "
        ++ JS.lit "Initializing" ++ rest
    /\ ds <> [] /\ Forall (fun c => JS.isDigit c = true) ds
    /\ ((length ds <= 15)%nat -> 10 = JS.decimal ds)
    /\ ((length ds <= 20)%nat -> 10 = JS.toDouble (JS.decimal ds))
    /\ JS.lit "Initializing" <> []
    /\ Forall (fun c => JS.isLineTerminator c = false) (JS.lit "Initializing")
    /\ (rest = [] \/ exists c r, rest = c :: r /\ JS.isLineTerminator c = true).
Proof.
  apply (X1_parse_result_comes_from_message
           (JS.lit "Job 7: Progress 10%: Initializing")).
  reflexivity.
Defined.

(** X2.  The parser finds a result in every message that holds, anywhere,
    [Progress ], at least one digit, [%: ] and one more character that is
    no line terminator; the percent is not checked against any bound. *)
Theorem X2_parse_finds_every_occurrence (pre ds tail : JS.jsstring) (c : N) :
  ds <> [] -> Forall (fun d => JS.isDigit d = true) ds ->
  JS.isLineTerminator c = false ->
  is_Some (JS.parseProgress
             (pre ++ JS.lit "Progress " ++ ds ++ JS.lit "%: " ++ c :: tail)).
Proof.
  intros Hds Hdig Hc.
  assert (is_Some (JS.progressMatch
            (pre ++ JS.lit "Progress " ++ ds ++ JS.lit "%: " ++ c :: tail)))
    as [[a b] Hm].
  { apply progressMatch_found. unfold JS.matchHere.
    rewrite stripLiteral_app.
    rewrite (span_app JS.isDigit ds);
      [|exact Hdig|right; eexists _, _; split; reflexivity].
    destruct ds as [|d ds']; [congruence|].
    rewrite stripLiteral_app. cbn [JS.span]. unfold JS.isDot at 1.
    rewrite Hc. cbn [negb].
    destruct (JS.span JS.isDot tail). eauto. }
  unfold JS.parseProgress. rewrite Hm. eauto.
Qed.

Lemma X2_parse_finds_every_occurrence_witness :
  is_Some (JS.parseProgress (JS.lit "x Progress 250%: ?")).
Proof.
  apply (X2_parse_finds_every_occurrence (JS.lit "x ") (JS.lit "250") [] 63).
  - discriminate.
  - repeat constructor.
  - reflexivity.
Defined.

(** ** What a settled tick stores *)

(** X3.  In the revision with unguarded setters, after every tick that
    received a project the stored status, progress and step are the parse
    of that project: the status is the fetched one, and progress and step
    are the parsed ones where the parse determines them and the stored ones
    otherwise. *)
Theorem X3_unguarded_tick_stores_the_parse interval p s :
  let s' := ProjectDetail.tickSettled interval (Promise.Fulfilled p) s in
  ProjectDetail.status (ProjectDetail.cells s') = Some (Snapshot.parsed p).1.1
  /\ ProjectDetail.progress (ProjectDetail.cells s')
     = default (ProjectDetail.progress (ProjectDetail.cells s))
         (Snapshot.parsed p).1.2
  /\ ProjectDetail.currentStep (ProjectDetail.cells s')
     = default (ProjectDetail.currentStep (ProjectDetail.cells s))
         (Snapshot.parsed p).2.
Proof.
  unfold Snapshot.parsed. detail_unfold.
  destruct (Project.status p), (Project.status_message p) as [[|m sg]|];
    try destruct (JS.parseProgress (m :: sg)) as [[n st]|];
    detail_frames; repeat split; reflexivity.
Qed.

(** X4.  In the revision with guarded setters, a tick that received a
    processing project whose message parses to a percent and a step stores
    each of the two exactly when it differs from the value the closure of
    the timer holds: a percent equal to the closure's is not stored, whatever
    the stored progress is. *)
Theorem X4_guarded_tick_compares_with_closure interval c p s m n st :
  Project.status p = Project.processing ->
  Project.status_message p = Some m ->
  JS.parseProgress m = Some (n, st) ->
  let s' := ProjectDetailRef.tickSettled interval c (Promise.Fulfilled p) s in
  ProjectDetailRef.progress (ProjectDetailRef.cells s')
  = (if decide (n = ProjectDetailRef.c_progress c)
     then ProjectDetailRef.progress (ProjectDetailRef.cells s) else n)
  /\ ProjectDetailRef.currentStep (ProjectDetailRef.cells s')
     = (if decide (st = ProjectDetailRef.c_currentStep c)
        then ProjectDetailRef.currentStep (ProjectDetailRef.cells s) else st).
Proof.
  intros Hs Hm Hp. ref_unfold. rewrite Hs, Hm.
  destruct m as [|m0 sg]; [discriminate Hp|]. rewrite Hp.
  repeat case_decide; ref_frames; split; reflexivity.
Qed.

Lemma X4_guarded_tick_compares_with_closure_witness :
  let p := {| Project.id := 7; Project.name := JS.lit "clip";
              Project.status := Project.processing;
              Project.status_message := Some (JS.lit "Progress 0%: Queued");
              Project.error_message := None |} in
  let s0 := ProjectDetailRef.initialState projectSlice.initialState in
  let c := ProjectDetailRef.closureOf 7 s0 in
  let s := ProjectDetailRef.setProgress 40 s0 in
  let s' := ProjectDetailRef.tickSettled 1 c (Promise.Fulfilled p) s in
  ProjectDetailRef.progress (ProjectDetailRef.cells s') = 40
  /\ ProjectDetailRef.currentStep (ProjectDetailRef.cells s')
     = JS.lit "Queued".
Proof.
  intros p s0 c s s'.
  apply (X4_guarded_tick_compares_with_closure 1 c p s
           (JS.lit "Progress 0%: Queued") 0 (JS.lit "Queued"));
    reflexivity.
Defined.

(** ** Timers and the remembered handle *)

Section TimersMore.

Import Project Promise.

Lemma Ref_tick_ref interval c p s :
  ProjectDetailRef.pollingIntervalRef
    (ProjectDetailRef.tickSettled interval c (Fulfilled p) s)
  = if isTerminal (Project.status p) then None
    else ProjectDetailRef.pollingIntervalRef s.
Proof.
  ref_unfold.
  destruct (Project.status p), (status_message p) as [[|m sg]|];
    try destruct (JS.parseProgress (m :: sg)) as [[n st]|];
    repeat case_decide; ref_frames; reflexivity.
Qed.

Lemma Ref_tick_nextHandle interval c r s :
  ProjectDetailRef.nextHandle (ProjectDetailRef.tickSettled interval c r s)
  = ProjectDetailRef.nextHandle s.
Proof.
  destruct r as [p|e]; [|reflexivity]. ref_unfold.
  destruct (Project.status p), (status_message p) as [[|m sg]|];
    try destruct (JS.parseProgress (m :: sg)) as [[n st]|];
    repeat case_decide; ref_frames; reflexivity.
Qed.

Lemma Ref_tick_other_timer interval c r s h :
  h <> interval ->
  ProjectDetailRef.intervals (ProjectDetailRef.tickSettled interval c r s) !! h
  = ProjectDetailRef.intervals s !! h.
Proof.
  intros Hne. destruct r as [p|e]; [|reflexivity].
  rewrite Ref_tick_intervals.
  destruct (isTerminal _); [|reflexivity].
  apply lookup_delete_ne. congruence.
Qed.

End TimersMore.

(** X5.  A settled tick never removes a timer other than its own, in
    either revision and whatever it received; and when the project it
    received is pending or processing it leaves its own timer too. *)
Theorem X5_tick_leaves_other_timers :
  (forall interval c r s h,
     h <> interval ->
     ProjectDetailRef.intervals (ProjectDetailRef.tickSettled interval c r s) !! h
     = ProjectDetailRef.intervals s !! h)
  /\
  (forall interval c p s,
     Project.isTerminal (Project.status p) = false ->
     ProjectDetailRef.intervals
       (ProjectDetailRef.tickSettled interval c (Promise.Fulfilled p) s)
     = ProjectDetailRef.intervals s)
  /\
  (forall interval r s h,
     h <> interval ->
     ProjectDetail.intervals (ProjectDetail.tickSettled interval r s) !! h
     = ProjectDetail.intervals s !! h)
  /\
  (forall interval p s,
     Project.isTerminal (Project.status p) = false ->
     ProjectDetail.intervals
       (ProjectDetail.tickSettled interval (Promise.Fulfilled p) s)
     = ProjectDetail.intervals s).
Proof.
  split; [|split; [|split]].
  - intros interval c r s h Hne. apply Ref_tick_other_timer. exact Hne.
  - intros interval c p s Ht. rewrite Ref_tick_intervals, Ht. reflexivity.
  - intros interval [p|e] s h Hne; [|reflexivity].
    rewrite Detail_tick_intervals.
    destruct (Project.isTerminal _); [|reflexivity].
    apply lookup_delete_ne. congruence.
  - intros interval p s Ht. rewrite Detail_tick_intervals, Ht. reflexivity.
Qed.

Lemma X5_tick_leaves_other_timers_witness :
  let p := {| Project.id := 7; Project.name := JS.lit "clip";
              Project.status := Project.completed;
              Project.status_message := None;
              Project.error_message := None |} in
  let s0 := ProjectDetailRef.initialState projectSlice.initialState in
  let c := ProjectDetailRef.closureOf 7 s0 in
  let s2 := (ProjectDetailRef.pollForUpdates c
               (ProjectDetailRef.pollForUpdates c s0).2).2 in
  ProjectDetailRef.intervals
    (ProjectDetailRef.tickSettled 1 c (Promise.Fulfilled p) s2) !! 2
  = Some c.
Proof.
  intros p s0 c s2.
  rewrite (proj1 X5_tick_leaves_other_timers 1 c (Promise.Fulfilled p) s2 2).
  - reflexivity.
  - discriminate.
Defined.

(** X6.  In the revision with the ref, the terminal tick of one timer
    empties the ref even when the ref holds the handle of another timer:
    that other timer stays live, and the cleanup of the effect, which only
    clears what the ref holds, no longer clears it. *)
Theorem X6_terminal_tick_forgets_other_handle interval other c p s :
  other <> interval ->
  ProjectDetailRef.pollingIntervalRef s = Some other ->
  is_Some (ProjectDetailRef.intervals s !! other) ->
  Project.isTerminal (Project.status p) = true ->
  let s' := ProjectDetailRef.tickSettled interval c (Promise.Fulfilled p) s in
  ProjectDetailRef.pollingIntervalRef s' = None
  /\ is_Some (ProjectDetailRef.intervals s' !! other)
  /\ is_Some (ProjectDetailRef.intervals
                (ProjectDetailRef.effectCleanup s') !! other).
Proof.
  intros Hne Href Hlive Ht s'. subst s'.
  assert (ProjectDetailRef.pollingIntervalRef
            (ProjectDetailRef.tickSettled interval c (Promise.Fulfilled p) s)
          = None) as Hr.
  { rewrite Ref_tick_ref, Ht. reflexivity. }
  assert (is_Some (ProjectDetailRef.intervals
            (ProjectDetailRef.tickSettled interval c (Promise.Fulfilled p) s)
            !! other)) as Hl.
  { rewrite Ref_tick_other_timer by exact Hne. exact Hlive. }
  split; [exact Hr|]. split; [exact Hl|].
  unfold ProjectDetailRef.effectCleanup. rewrite Hr. exact Hl.
Qed.

Lemma X6_terminal_tick_forgets_other_handle_witness :
  let p := {| Project.id := 7; Project.name := JS.lit "clip";
              Project.status := Project.completed;
              Project.status_message := None;
              Project.error_message := None |} in
  let s0 := ProjectDetailRef.initialState projectSlice.initialState in
  let c := ProjectDetailRef.closureOf 7 s0 in
  let s2 := (ProjectDetailRef.pollForUpdates c
               (ProjectDetailRef.pollForUpdates c s0).2).2 in
  let s' := ProjectDetailRef.tickSettled 1 c (Promise.Fulfilled p) s2 in
  ProjectDetailRef.pollingIntervalRef s2 = Some 2
  /\ ProjectDetailRef.pollingIntervalRef s' = None
  /\ is_Some (ProjectDetailRef.intervals
                (ProjectDetailRef.effectCleanup s') !! 2).
Proof.
  intros p s0 c s2 s'. split; [reflexivity|].
  destruct (X6_terminal_tick_forgets_other_handle 1 2 c p s2) as (H1 & _ & H3).
  - discriminate.
  - reflexivity.
  - exists c. reflexivity.
  - reflexivity.
  - split; [exact H1|exact H3].
Defined.

Section RefRuns.

Import Project Promise ProjectDetailRef ProjectDetailRun.

Lemma consistent_pollForUpdates c s :
  (forall h, pollingIntervalRef s = Some h -> is_Some (intervals s !! h)) ->
  (forall h, is_Some (intervals s !! h) -> h < nextHandle s) ->
  let s' := (pollForUpdates c s).2 in
  dirty s' = dirty s
  /\ (forall h, pollingIntervalRef s' = Some h -> is_Some (intervals s' !! h))
  /\ (forall h, is_Some (intervals s' !! h) -> h < nextHandle s').
Proof.
  intros Href Hlt. ref_unfold. ref_frames. split; [reflexivity|]. split.
  - intros h Hh. injection Hh as <-. rewrite lookup_insert_eq. eauto.
  - intros h Hh. destruct (decide (nextHandle s = h)) as [<-|Hne]; [lia|].
    rewrite lookup_insert_ne in Hh by exact Hne.
    specialize (Hlt h Hh). lia.
Qed.

Lemma consistent_effectCleanup s :
  consistent s -> consistent (effectCleanup s).
Proof.
  unfold effectCleanup.
  destruct (pollingIntervalRef s) as [h0|] eqn:E; intros Hc; [|exact Hc].
  destruct Hc as (Hd & Href & Hlt).
  split; [exact Hd|]. split; [discriminate|]. ref_frames.
  intros h Hh. apply Hlt.
  destruct (decide (h0 = h)) as [->|Hne].
  - rewrite lookup_delete_eq in Hh. destruct Hh; discriminate.
  - rewrite lookup_delete_ne in Hh by exact Hne. exact Hh.
Qed.

Lemma consistent_tickSettled interval c r s :
  consistent s -> consistent (tickSettled interval c r s).
Proof.
  intros (Hd & Href & Hlt). split; [reflexivity|].
  destruct r as [p|e]; [|split; assumption].
  rewrite Ref_tick_nextHandle. split.
  - intros h. rewrite Ref_tick_ref, Ref_tick_intervals.
    destruct (isTerminal (Project.status p)); [discriminate|]. apply Href.
  - intros h. rewrite Ref_tick_intervals.
    destruct (isTerminal (Project.status p)); [|apply Hlt].
    intros Hh. apply Hlt.
    destruct (decide (interval = h)) as [->|Hne].
    + rewrite lookup_delete_eq in Hh. destruct Hh; discriminate.
    + rewrite lookup_delete_ne in Hh by exact Hne. exact Hh.
Qed.

Lemma consistent_fetchProjectSettled c r s :
  consistent s -> consistent (fetchProjectSettled c r s).
Proof.
  intros (Hd & Href & Hlt). split; [reflexivity|].
  unfold fetchProjectSettled. destruct r as [data|e].
  - destruct (Project.status data) eqn:Es;
      destruct (status_message data) as [[|m sg]|];
      try destruct (JS.parseProgress (m :: sg)) as [[n st]|];
      ref_unfold; ref_frames; try (split; assumption).
    all: split;
      [ intros h Hh; injection Hh as <-; rewrite lookup_insert_eq; eauto
      | intros h Hh; destruct (decide (nextHandle s = h)) as [<-|Hne]; [lia|];
        rewrite lookup_insert_ne in Hh by exact Hne;
        specialize (Hlt h Hh); lia ].
  - ref_unfold. ref_frames. split; assumption.
Qed.

Lemma consistent_step s s' : step s s' -> consistent s -> consistent s'.
Proof.
  intros Hstep Hc. destruct Hstep.
  - (* effect *)
    apply consistent_effectCleanup in Hc. unfold effect.
    destruct (fetchProject _ _) as [s'|] eqn:E; [|exact Hc].
    unfold fetchProject in E. destruct (c_deleteSuccess _); [discriminate|].
    injection E as <-. destruct Hc as (Hd & Href & Hlt).
    ref_unfold. ref_frames. repeat split; assumption.
  - apply consistent_fetchProjectSettled. exact Hc.
  - (* tickFired *)
    unfold tickFired in H. destruct (intervals s !! h); [|discriminate].
    injection H as <- <-. exact Hc.
  - apply consistent_tickSettled. exact Hc.
  - (* handleStartProcessingSettled *)
    destruct Hc as (Hd & Href & Hlt). unfold handleStartProcessingSettled.
    destruct r; ref_unfold; ref_frames; repeat split; assumption.
  - (* startPollingTask *)
    destruct Hc as (Hd & Href & Hlt). unfold startPollingTask.
    destruct (consistent_pollForUpdates c
                (print (Console.log "Starting processing, beginning polling...") s)
                Href Hlt) as (Hd' & Href' & Hlt').
    split; [rewrite Hd'; exact Hd|]. split; assumption.
  - (* handleDelete *)
    destruct Hc as (Hd & Href & Hlt). unfold handleDelete.
    destruct p; ref_unfold; ref_frames; repeat split; assumption.
  - (* handleDeleteSettled *)
    destruct Hc as (Hd & Href & Hlt). unfold handleDeleteSettled.
    destruct r; ref_unfold; ref_frames; repeat split; assumption.
  - apply consistent_effectCleanup. exact Hc.
  - exact Hc.
Qed.

Lemma reachable_consistent st s : reachable st s -> consistent s.
Proof.
  induction 1 as [|s s' _ IH Hstep].
  - split; [reflexivity|]. split; [discriminate|].
    intros h [x Hx]. cbn in Hx. rewrite lookup_empty in Hx. discriminate.
  - eapply consistent_step; eassumption.
Qed.

End RefRuns.

(** X7.  In every state the project page (the revision with the ref) can
    reach from its mount, by any sequence of effect runs, settled requests,
    delayed tasks, handler calls and cleanups: no state write is pending,
    the handle the ref holds belongs to a live timer, and every live handle
    is below the next handle to be given out. *)
Theorem X7_remembered_handle_is_live st s :
  ProjectDetailRun.reachable st s ->
  ProjectDetailRef.dirty s = false
  /\ (forall h, ProjectDetailRef.pollingIntervalRef s = Some h ->
                is_Some (ProjectDetailRef.intervals s !! h))
  /\ (forall h, is_Some (ProjectDetailRef.intervals s !! h) ->
                h < ProjectDetailRef.nextHandle s).
Proof. intros H. exact (reachable_consistent st s H). Qed.

Lemma X7_remembered_handle_is_live_witness :
  let p := {| Project.id := 7; Project.name := JS.lit "clip";
              Project.status := Project.processing;
              Project.status_message := None;
              Project.error_message := None |} in
  let s0 := ProjectDetailRef.initialState projectSlice.initialState in
  let s1 := ProjectDetailRef.fetchProjectSettled
              (ProjectDetailRef.closureOf 7 s0) (Promise.Fulfilled p) s0 in
  ProjectDetailRef.pollingIntervalRef s1 = Some 1
  /\ is_Some (ProjectDetailRef.intervals s1 !! 1).
Proof.
  intros p s0 s1. split; [reflexivity|].
  apply (X7_remembered_handle_is_live projectSlice.initialState s1).
  - eapply ProjectDetailRun.reach_step.
    + apply ProjectDetailRun.reach_initial.
    + apply ProjectDetailRun.step_fetchProjectSettled.
  - reflexivity.
Defined.

(** X8.  In every reachable state of that page a call of [pollForUpdates]
    adds one timer to the live ones, under a handle that was not live
    before, and keeps every timer that was live: starting is never
    skipped. *)
Theorem X8_every_start_adds_a_timer st s c :
  ProjectDetailRun.reachable st s ->
  let '(h, s') := ProjectDetailRef.pollForUpdates c s in
  ProjectDetailRef.intervals s !! h = None
  /\ ProjectDetailRef.intervals s' !! h = Some c
  /\ size (ProjectDetailRef.intervals s')
     = S (size (ProjectDetailRef.intervals s))
  /\ forall h', is_Some (ProjectDetailRef.intervals s !! h') ->
                is_Some (ProjectDetailRef.intervals s' !! h').
Proof.
  intros H. destruct (reachable_consistent st s H) as (_ & _ & Hlt).
  assert (ProjectDetailRef.intervals s !! ProjectDetailRef.nextHandle s = None)
    as Hfresh.
  { destruct (ProjectDetailRef.intervals s !! ProjectDetailRef.nextHandle s)
      eqn:E; [|reflexivity].
    assert (ProjectDetailRef.nextHandle s < ProjectDetailRef.nextHandle s)
      by (apply Hlt; rewrite E; eauto).
    lia. }
  ref_unfold. ref_frames. split; [exact Hfresh|].
  split; [apply lookup_insert_eq|].
  split; [apply map_size_insert_None; exact Hfresh|].
  intros h' Hh'.
  destruct (decide (ProjectDetailRef.nextHandle s = h')) as [<-|Hne].
  - rewrite lookup_insert_eq. eauto.
  - rewrite lookup_insert_ne by exact Hne. exact Hh'.
Qed.

Lemma X8_every_start_adds_a_timer_witness :
  let s0 := ProjectDetailRef.initialState projectSlice.initialState in
  let c := ProjectDetailRef.closureOf 7 s0 in
  let s1 := (ProjectDetailRef.startPollingTask c s0).2 in
  size (ProjectDetailRef.intervals (ProjectDetailRef.pollForUpdates c s1).2)
  = S (size (ProjectDetailRef.intervals s1)).
Proof.
  intros s0 c s1.
  assert (ProjectDetailRun.reachable projectSlice.initialState s1) as Hr.
  { eapply ProjectDetailRun.reach_step.
    - apply ProjectDetailRun.reach_initial.
    - apply (ProjectDetailRun.step_startPollingTask c). }
  pose proof (X8_every_start_adds_a_timer projectSlice.initialState s1 c Hr) as H.
  destruct (ProjectDetailRef.pollForUpdates c s1) as [h s'].
  destruct H as (_ & _ & H & _). exact H.
Defined.

(** ** Loading the page, leaving it *)

(** X9.  In the revision with the ref, when the project fetched on load is
    processing, [fetchProject] starts one timer under the next handle and
    remembers it, and the cleanup of the effect clears exactly that timer
    and empties the ref; when the project has any other status no timer is
    started and the ref is left alone.  In both cases the loading flag is
    down afterwards and the fetched project is the current one of the
    store. *)
Theorem X9_load_starts_polling_only_when_processing c data s :
  let s1 := ProjectDetailRef.fetchProjectSettled c (Promise.Fulfilled data) s in
  ProjectDetailRef.loading (ProjectDetailRef.cells s1) = false
  /\ projectSlice.currentProject (ProjectDetailRef.store s1) = Some data
  /\ ProjectDetailRef.status (ProjectDetailRef.cells s1)
     = Some (Project.status data)
  /\ (Project.status data = Project.processing ->
      ProjectDetailRef.intervals s1
      = <[ProjectDetailRef.nextHandle s := c]> (ProjectDetailRef.intervals s)
      /\ ProjectDetailRef.pollingIntervalRef s1
         = Some (ProjectDetailRef.nextHandle s)
      /\ ProjectDetailRef.tickFired (ProjectDetailRef.nextHandle s)
           (ProjectDetailRef.effectCleanup s1) = None
      /\ ProjectDetailRef.pollingIntervalRef
           (ProjectDetailRef.effectCleanup s1) = None)
  /\ (Project.status data <> Project.processing ->
      ProjectDetailRef.intervals s1 = ProjectDetailRef.intervals s
      /\ ProjectDetailRef.pollingIntervalRef s1
         = ProjectDetailRef.pollingIntervalRef s).
Proof.
  unfold ProjectDetailRef.fetchProjectSettled,
    ProjectDetailRef.effectCleanup, ProjectDetailRef.tickFired.
  destruct (Project.status data) eqn:Es;
    destruct (Project.status_message data) as [[|m sg]|];
    try destruct (JS.parseProgress (m :: sg)) as [[n st]|];
    ref_unfold; ref_frames;
    (split; [reflexivity|]; split; [reflexivity|]; split; [reflexivity|];
     split; [intros Hp; try discriminate Hp | intros Hp; try congruence]);
    try (split; reflexivity).
  all: split; [reflexivity|]; split; [reflexivity|];
    split; [rewrite lookup_delete_eq; reflexivity | reflexivity].
Qed.

Lemma X9_load_starts_polling_only_when_processing_witness :
  let data := {| Project.id := 7; Project.name := JS.lit "clip";
                 Project.status := Project.processing;
                 Project.status_message :=
                   Some (JS.lit "Progress 10%: Initializing");
                 Project.error_message := None |} in
  let s := ProjectDetailRef.initialState projectSlice.initialState in
  let c := ProjectDetailRef.closureOf 7 s in
  let s1 := ProjectDetailRef.fetchProjectSettled c (Promise.Fulfilled data) s in
  ProjectDetailRef.pollingIntervalRef s1 = Some 1
  /\ ProjectDetailRef.tickFired 1 (ProjectDetailRef.effectCleanup s1) = None.
Proof.
  intros data s c s1.
  destruct (X9_load_starts_polling_only_when_processing c data s)
    as (_ & _ & _ & H & _).
  destruct (H eq_refl) as (_ & H1 & H2 & _).
  split; [exact H1|exact H2].
Defined.

(** X10.  In the revision with the handle cell, the cleanup of the effect
    reads the handle of the render the effect ran in.  A timer started from
    that same render, as [fetchProject] does, has a handle that render never
    saw, so the cleanup does not clear it: the timer is still live after the
    page has been left. *)
Theorem X10_cleanup_misses_timer_of_its_own_render c s :
  ProjectDetail.c_pollingInterval c <> Some (ProjectDetail.nextHandle s) ->
  let '(h, s1) := ProjectDetail.pollForUpdates c s in
  ProjectDetail.intervals (ProjectDetail.effectCleanup c s1) !! h = Some c.
Proof.
  intros Hc. unfold ProjectDetail.effectCleanup. detail_unfold. detail_frames.
  destruct (ProjectDetail.c_pollingInterval c) as [h0|]; detail_frames.
  - rewrite lookup_delete_ne by congruence. apply lookup_insert_eq.
  - apply lookup_insert_eq.
Qed.

Lemma X10_cleanup_misses_timer_of_its_own_render_witness :
  let s := ProjectDetail.initialState in
  let c := ProjectDetail.closureOf 7 s in
  ProjectDetail.c_pollingInterval c <> Some (ProjectDetail.nextHandle s)
  /\ let '(h, s1) := ProjectDetail.pollForUpdates c s in
     ProjectDetail.intervals (ProjectDetail.effectCleanup c s1) !! h = Some c.
Proof.
  intros s c. split; [discriminate|].
  apply (X10_cleanup_misses_timer_of_its_own_render c s). discriminate.
Defined.

(** ** Deleting *)

(** X11.  In the revision with the ref, once a deletion has been requested
    for a project the effect runs again and issues no request: its
    [fetchProject] returns at once, and the timer the ref held is cleared.
    If the deletion is then rejected, the store is exactly as it was before
    the request, the success state is taken back and the error shown is the
    server's detail, else the message of the error, else a fixed text; and
    the effect, run again, fetches the project anew. *)
Theorem X11_rejected_deletion_is_taken_back i p e s :
  let s1 := ProjectDetailRef.effect i
              (ProjectDetailRef.handleDelete (Some p) s) in
  let s2 := ProjectDetailRef.handleDeleteSettled p (Promise.Rejected e) s1 in
  ProjectDetailRef.deleteSuccess (ProjectDetailRef.cells s1) = true
  /\ ProjectDetailRef.deletedProjectName (ProjectDetailRef.cells s1)
     = Project.name p
  /\ ProjectDetailRef.fetchProject (ProjectDetailRef.closureOf i s1) s1 = None
  /\ ProjectDetailRef.pollingIntervalRef s1 = None
  /\ (forall h, ProjectDetailRef.pollingIntervalRef s = Some h ->
                ProjectDetailRef.intervals s1 !! h = None)
  /\ ProjectDetailRef.store s2 = ProjectDetailRef.store s
  /\ ProjectDetailRef.deleteSuccess (ProjectDetailRef.cells s2) = false
  /\ ProjectDetailRef.deletedProjectName (ProjectDetailRef.cells s2) = []
  /\ ProjectDetailRef.deleting (ProjectDetailRef.cells s2) = false
  /\ ProjectDetailRef.error (ProjectDetailRef.cells s2)
     = Some (match Promise.detail e, Promise.message e with
             | Some (d :: ds), _ => d :: ds
             | _, Some (m :: ms) => m :: ms
             | _, _ => JS.lit "Failed to delete project"
             end)
  /\ is_Some (ProjectDetailRef.fetchProject
                (ProjectDetailRef.closureOf i s2) s2).
Proof.
  unfold ProjectDetailRef.effect, ProjectDetailRef.effectCleanup,
    ProjectDetailRef.handleDelete, ProjectDetailRef.handleDeleteSettled,
    ProjectDetailRef.fetchProject, ProjectDetailRef.closureOf,
    ProjectDetailRef.deleteErrorMessage, JS.orElse.
  ref_unfold. ref_frames.
  destruct (ProjectDetailRef.pollingIntervalRef s) as [h0|] eqn:Eref;
    ref_frames; cbn [ProjectDetailRef.c_deleteSuccess]; ref_frames.
  - repeat split; try reflexivity.
    + intros h Hh. injection Hh as <-. apply lookup_delete_eq.
    + eauto.
  - repeat split; try reflexivity; try (intros h Hh; discriminate Hh); eauto.
Qed.

(** ** The project slice *)

Section SliceMore.

Import Project projectSlice projectReducers.

Lemma assignFirst_ids i st ps :
  List.map Project.id (assignFirst i st ps) = List.map Project.id ps.
Proof.
  induction ps as [|p r IH]; simpl; [reflexivity|].
  destruct (Project.id p =? i); simpl; [reflexivity|]. f_equal. exact IH.
Qed.

Lemma assignFirst_absent i st ps :
  ~ In i (List.map Project.id ps) -> assignFirst i st ps = ps.
Proof.
  induction ps as [|p r IH]; simpl; intros H; [reflexivity|].
  destruct (Project.id p =? i) eqn:E.
  - apply N.eqb_eq in E. exfalso. apply H. left. exact E.
  - f_equal. apply IH. intros Hin. apply H. right. exact Hin.
Qed.

End SliceMore.

(** X12.  [updateProjectStatus] never adds or removes a project: the list
    of ids is the same before and after, in the same order; and for an id
    that is in neither the list nor the current project the whole state is
    unchanged. *)
Theorem X12_updateProjectStatus_keeps_ids i st state :
  projectSlice.ids (projectReducers.updateProjectStatus i st state)
  = projectSlice.ids state
  /\ (~ In i (projectSlice.ids state) ->
      projectSlice.currentIs i state = false ->
      projectReducers.updateProjectStatus i st state = state).
Proof.
  split.
  - apply assignFirst_ids.
  - intros Habs Hcur. unfold projectReducers.updateProjectStatus.
    rewrite (assignFirst_absent i st _ Habs).
    unfold projectSlice.currentIs in Hcur.
    destruct state as [ps [cp|] l e]; simpl in *; [|reflexivity].
    rewrite Hcur. reflexivity.
Qed.

Lemma X12_updateProjectStatus_keeps_ids_witness :
  let p := {| Project.id := 1; Project.name := JS.lit "A";
              Project.status := Project.processing;
              Project.status_message := None;
              Project.error_message := None |} in
  let state := projectSlice.fetchProjectsSuccess [p] projectSlice.initialState in
  projectReducers.updateProjectStatus 2 Project.completed state = state.
Proof.
  intros p state.
  apply (proj2 (X12_updateProjectStatus_keeps_ids 2 Project.completed state)).
  - simpl. intros [H|[]]. discriminate H.
  - reflexivity.
Defined.

(** X13.  After [deleteProject] for an id, [updateProjectStatus] for that id
    changes nothing: a status that arrives for a deleted project does not
    bring the project back, neither into the list nor as current project. *)
Theorem X13_status_update_after_delete_is_ignored i st state :
  projectReducers.updateProjectStatus i st (projectSlice.deleteProject i state)
  = projectSlice.deleteProject i state.
Proof.
  unfold projectReducers.updateProjectStatus.
  rewrite (assignFirst_absent i st _ (deleteProject_removes i state)).
  pose proof (deleteProject_current i state) as Hcur.
  unfold projectSlice.currentIs in Hcur.
  destruct (projectSlice.deleteProject i state) as [ps [cp|] l e];
    simpl in *; [|reflexivity].
  rewrite Hcur. reflexivity.
Qed.

(** X14.  [deleteProject] removes every project with the id and nothing
    else: a project is in the list afterwards exactly when it was there
    before and has another id; the projects kept are in their old order;
    deleting the same id again changes nothing. *)
Theorem X14_deleteProject_removes_only_that_id i state :
  (forall p, In p (projectSlice.projects (projectSlice.deleteProject i state))
             <-> In p (projectSlice.projects state) /\ Project.id p <> i)
  /\ sublist (projectSlice.projects (projectSlice.deleteProject i state))
       (projectSlice.projects state)
  /\ projectSlice.deleteProject i (projectSlice.deleteProject i state)
     = projectSlice.deleteProject i state.
Proof.
  split; [|split].
  - intros p. unfold projectSlice.deleteProject. simpl.
    rewrite filter_In, negb_true_iff, N.eqb_neq. reflexivity.
  - unfold projectSlice.deleteProject. simpl.
    induction (projectSlice.projects state) as [|p r IH]; simpl.
    + constructor.
    + destruct (negb (Project.id p =? i)).
      * apply sublist_skip. exact IH.
      * apply sublist_cons. exact IH.
  - unfold projectSlice.deleteProject, projectSlice.currentIs. simpl. f_equal.
    + induction (projectSlice.projects state) as [|p r IH]; simpl;
        [reflexivity|].
      destruct (negb (Project.id p =? i)) eqn:E; simpl; [|exact IH].
      rewrite E. f_equal. exact IH.
    + destruct (projectSlice.currentProject state) as [cp|]; [|reflexivity].
      destruct (Project.id cp =? i) eqn:E; [reflexivity|]. rewrite E.
      reflexivity.
Qed.

(** ** The stored token *)

(** X15.  After [loginSuccess] with a non-empty token, the storage holds
    that token, every later request carries [Bearer <token>] as its
    [Authorization] header and keeps its other headers, and a state freshly
    initialised from the storage (a reload) is authenticated with that
    token. *)
Theorem X15_login_token_reaches_requests tok state b config :
  tok <> [] ->
  let '(state', b') := authSlice.loginSuccess tok (state, b) in
  authSlice.token state' = Some tok
  /\ authSlice.isAuthenticated state' = true
  /\ authSlice.getToken b' = Some tok
  /\ api.headers (api.requestInterceptor config b') !! "Authorization"
     = Some (JS.lit "Bearer " ++ tok)
  /\ (forall k, k <> "Authorization" ->
        api.headers (api.requestInterceptor config b') !! k
        = api.headers config !! k)
  /\ authSlice.token (authSlice.initialState b') = Some tok
  /\ authSlice.isAuthenticated (authSlice.initialState b') = true.
Proof.
  intros Htok. destruct tok as [|t tok]; [congruence|].
  unfold authSlice.loginSuccess, authSlice.initialState, authSlice.getToken,
    api.requestInterceptor. cbn [api.localStorage].
  rewrite !lookup_insert_eq. cbn [api.headers api.localStorage
    authSlice.token authSlice.isAuthenticated authSlice.truthy].
  rewrite ?lookup_insert_eq. cbn [api.headers].
  split; [reflexivity|]. split; [reflexivity|]. split; [reflexivity|].
  split; [rewrite ?lookup_insert_eq; reflexivity|].
  split; [|split; reflexivity].
  intros k Hk. apply lookup_insert_ne. congruence.
Qed.

Lemma X15_login_token_reaches_requests_witness :
  let config := {| api.url := "/api/v1/projects/7"; api.headers := ∅ |} in
  let b := {| api.localStorage := ∅; api.href := "/login" |} in
  let '(state', b') :=
    authSlice.loginSuccess (JS.lit "abc") (authSlice.initialState b, b) in
  api.headers (api.requestInterceptor config b') !! "Authorization"
  = Some (JS.lit "Bearer abc").
Proof.
  intros config b.
  pose proof (X15_login_token_reaches_requests (JS.lit "abc")
                (authSlice.initialState b) b config) as H.
  destruct (authSlice.loginSuccess (JS.lit "abc") (authSlice.initialState b, b))
    as [state' b'].
  destruct H as (_ & _ & _ & H & _); [discriminate|exact H].
Defined.

(** X16.  After [logout] the storage holds no token, the state is not
    authenticated, no later request gets an [Authorization] header added,
    and neither a fresh initial state nor [restoreAuthState] authenticates
    from the storage. *)
Theorem X16_logout_ends_the_session state b config :
  let '(state', b') := authSlice.logout (state, b) in
  authSlice.getToken b' = None
  /\ authSlice.token state' = None
  /\ authSlice.isAuthenticated state' = false
  /\ authSlice.user state' = None
  /\ api.requestInterceptor config b' = config
  /\ authSlice.isAuthenticated (authSlice.initialState b') = false
  /\ authSlice.restoreAuthState state' b' = state'.
Proof.
  unfold authSlice.logout, authSlice.initialState, authSlice.getToken,
    authSlice.restoreAuthState, api.requestInterceptor.
  repeat split; unfold authSlice.getToken; cbn [api.localStorage];
    rewrite ?lookup_delete_eq; reflexivity.
Qed.

(** X17.  [restoreAuthState] never takes authentication away: a state that
    is authenticated stays so whatever the storage holds.  So when the
    request for the current user fails while the application loads, the
    token is removed from the storage but the state, authenticated by the
    first [restoreAuthState], is still authenticated and still holds the
    token, the root route still leads to the dashboard, and the loading
    flag is down. *)
Theorem X17_failed_user_fetch_leaves_state_authenticated s s1 e :
  App.loadEffect s = Some s1 ->
  let s2 := App.loadSettled (Promise.Rejected e) s1 in
  authSlice.getToken (App.browser s2) = None
  /\ authSlice.isAuthenticated (App.auth s1) = true
  /\ authSlice.isAuthenticated (App.auth s2) = true
  /\ authSlice.token (App.auth s2) = authSlice.getToken (App.browser s)
  /\ App.rootRedirect (App.auth s2) = "/dashboard"
  /\ authSlice.loading (App.auth s2) = false.
Proof.
  unfold App.loadEffect. intros H.
  destruct (authSlice.getToken (App.browser s)) as [[|t tok]|] eqn:Et;
    try discriminate H.
  cbn [authSlice.truthy] in H. injection H as <-.
  unfold App.loadSettled. cbn [api.request App.browser App.auth].
  set (b1 := api.responseRejected e (App.browser s)).
  set (b2 := {| api.localStorage := delete "token" (api.localStorage b1);
                api.href := api.href b1 |}).
  assert (authSlice.getToken b2 = None) as H2.
  { unfold authSlice.getToken, b2. cbn [api.localStorage].
    apply lookup_delete_eq. }
  assert (forall a, authSlice.restoreAuthState a b2 = a) as Hr.
  { intros a. unfold authSlice.restoreAuthState. rewrite H2. reflexivity. }
  rewrite Hr. unfold authSlice.restoreAuthState. rewrite Et.
  cbn [authSlice.isAuthenticated authSlice.setLoading authSlice.token
       authSlice.loading App.rootRedirect].
  repeat split; try reflexivity. exact H2.
Qed.

Lemma X17_failed_user_fetch_leaves_state_authenticated_witness :
  let b := {| api.localStorage := {["token" := JS.lit "expired"]};
              api.href := "/" |} in
  let s := {| App.auth := authSlice.initialState b; App.browser := b;
              App.console := [] |} in
  let e := {| Promise.response_status := Some 500; Promise.detail := None;
              Promise.message := None |} in
  match App.loadEffect s with
  | Some s1 =>
      let s2 := App.loadSettled (Promise.Rejected e) s1 in
      authSlice.getToken (App.browser s2) = None
      /\ authSlice.isAuthenticated (App.auth s2) = true
  | None => False
  end.
Proof.
  intros b s e.
  destruct (App.loadEffect s) as [s1|] eqn:E; [|discriminate E].
  destruct (X17_failed_user_fetch_leaves_state_authenticated s s1 e E)
    as (H1 & _ & H2 & _).
  split; [exact H1|exact H2].
Defined.

(** ** Runs of the dashboard *)

Section DashboardRuns.

Import Project Dashboard DashboardRun.

Lemma pollingEffect_settled s :
  (forall h, is_Some (intervals s !! h) -> cleanup s = Some h) ->
  settled (pollingEffect s).
Proof.
  intros Hown.
  assert (intervals (runCleanup s) = ∅) as He.
  { apply map_empty. intros h. apply runCleanup_empties. exact Hown. }
  assert (cleanup (runCleanup s) = None) as Hc.
  { unfold runCleanup. destruct (cleanup s) eqn:E; [reflexivity|exact E]. }
  unfold settled, pollingEffect. cbv zeta.
  destruct (processingProjects (projectSlice.projects (store (runCleanup s))))
    as [|p ps] eqn:Ep.
  - rewrite Hc. split; [exact He|exact Ep].
  - cbn [cleanup intervals store]. rewrite He, Ep, insert_empty.
    split; [reflexivity|discriminate].
Qed.

Lemma settled_owned s :
  settled s -> forall h, is_Some (intervals s !! h) -> cleanup s = Some h.
Proof.
  unfold settled. intros H h [ps Hl].
  destruct (cleanup s) as [h0|].
  - destruct H as [H _]. rewrite H in Hl.
    apply lookup_singleton_Some in Hl as [-> _]. reflexivity.
  - destruct H as [H _]. rewrite H, lookup_empty in Hl. discriminate.
Qed.

Lemma reachable_settled st s : reachable st s -> settled s.
Proof.
  induction 1 as [|s s' _ IH Hstep].
  - apply pollingEffect_settled. intros h [x Hx].
    cbn in Hx. rewrite lookup_empty in Hx. discriminate.
  - destruct Hstep.
    + apply pollingEffect_settled. apply (settled_owned s IH).
    + apply pollingEffect_settled. apply (settled_owned s IH).
    + unfold settled in *. cbn [cleanup intervals store dispatch].
      rewrite H. exact IH.
    + exact IH.
Qed.

End DashboardRuns.

(** X18.  In every state a mounted dashboard can reach, by any sequence of
    loads, store changes followed by the polling effect, and settled ticks:
    the projects polled by a live timer are exactly the pending and
    processing projects of the store's list, at most one timer is live, and
    it is the one the cleanup of the effect will clear. *)
Theorem X18_dashboard_timer_follows_the_store st s :
  DashboardRun.reachable st s ->
  (forall p, Dashboard.polled s p
             <-> In p (projectSlice.projects (Dashboard.store s))
                 /\ Project.isUnfinished (Project.status p) = true)
  /\ (size (Dashboard.intervals s) <= 1)%nat
  /\ (forall h, is_Some (Dashboard.intervals s !! h) ->
                Dashboard.cleanup s = Some h)
  /\ Dashboard.intervals (Dashboard.runCleanup s) = ∅.
Proof.
  intros Hr. pose proof (reachable_settled st s Hr) as Hs.
  pose proof (settled_owned s Hs) as Hown.
  split; [|split; [|split; [exact Hown|]]].
  - intros p. rewrite <- processingProjects_In. unfold Dashboard.polled.
    unfold DashboardRun.settled in Hs.
    destruct (Dashboard.cleanup s) as [h0|]; destruct Hs as [Hi Hp].
    + rewrite Hi. split.
      * intros (h & ps & Hl & Hin).
        apply lookup_singleton_Some in Hl as [_ <-]. exact Hin.
      * intros Hin. eexists h0, _. split; [apply lookup_singleton_eq|exact Hin].
    + rewrite Hi, Hp. split.
      * intros (h & ps & Hl & _). rewrite lookup_empty in Hl. discriminate.
      * intros [].
  - unfold DashboardRun.settled in Hs.
    destruct (Dashboard.cleanup s) as [h0|]; destruct Hs as [Hi _]; rewrite Hi.
    + rewrite map_size_singleton. lia.
    + rewrite map_size_empty. lia.
  - apply map_empty. intros h. apply runCleanup_empties. exact Hown.
Qed.

Lemma X18_dashboard_timer_follows_the_store_witness :
  let A := {| Project.id := 1; Project.name := JS.lit "A";
              Project.status := Project.pending;
              Project.status_message := None;
              Project.error_message := None |} in
  let B := {| Project.id := 2; Project.name := JS.lit "B";
              Project.status := Project.completed;
              Project.status_message := None;
              Project.error_message := None |} in
  let s := Dashboard.pollingEffect
             (DashboardRun.dispatch (projectSlice.deleteProject 1)
                (Dashboard.pollingEffect
                   (DashboardRun.fetchProjectsFulfilled [A; B]
                      (Dashboard.pollingEffect
                         (Dashboard.initialState projectSlice.initialState))))) in
  (size (Dashboard.intervals s) <= 1)%nat /\ ~ Dashboard.polled s A.
Proof.
  intros A B s.
  assert (DashboardRun.reachable projectSlice.initialState s) as Hr.
  { eapply DashboardRun.reach_step;
      [|apply DashboardRun.step_dispatch].
    eapply DashboardRun.reach_step;
      [|apply DashboardRun.step_loaded].
    apply DashboardRun.reach_mount. }
  destruct (X18_dashboard_timer_follows_the_store _ s Hr) as (Hp & Hsz & _).
  split; [exact Hsz|].
  intros H. apply Hp in H as [Hin _]. simpl in Hin.
  destruct Hin as [Hin|[]]. discriminate Hin.
Defined.

(** ** The progress map of the dashboard *)

Section ProgressMap.

Import JS Project Dashboard.

Lemma parseProgress_nil : parseProgress [] = None.
Proof. reflexivity. Qed.

(** The entry a single project contributes. *)
Lemma recordProgress_lookup acc q i :
  recordProgress acc q !! i
  = if decide (Project.id q = i) then
      match error_message q with
      | Some m => match parseProgress m with
                  | Some v => Some v
                  | None => acc !! i
                  end
      | None => acc !! i
      end
    else acc !! i.
Proof.
  unfold recordProgress.
  destruct (error_message q) as [[|m sg]|].
  - rewrite parseProgress_nil. destruct (decide _); reflexivity.
  - destruct (parseProgress (m :: sg)) as [[n st]|].
    + destruct (decide (Project.id q = i)) as [->|Hne].
      * apply lookup_insert_eq.
      * apply lookup_insert_ne. exact Hne.
    + destruct (decide _); reflexivity.
  - destruct (decide _); reflexivity.
Qed.

Lemma fold_recordProgress_other ps acc i :
  ~ In i (List.map Project.id ps) ->
  fold_left recordProgress ps acc !! i = acc !! i.
Proof.
  revert acc. induction ps as [|q ps IH]; intros acc H; simpl.
  - reflexivity.
  - rewrite IH by (intros Hin; apply H; right; exact Hin).
    rewrite recordProgress_lookup.
    rewrite decide_False; [reflexivity|].
    intros E. apply H. left. exact E.
Qed.

Lemma fold_recordProgress_unique ps acc p :
  List.NoDup (List.map Project.id ps) -> In p ps ->
  fold_left recordProgress ps acc !! Project.id p
  = match error_message p with
    | Some m => match parseProgress m with
                | Some v => Some v
                | None => acc !! Project.id p
                end
    | None => acc !! Project.id p
    end.
Proof.
  revert acc. induction ps as [|q ps IH]; intros acc Hnd Hin; [destruct Hin|].
  simpl in Hnd. apply List.NoDup_cons_iff in Hnd as [Hq Hnd]. simpl.
  destruct Hin as [->|Hin].
  - rewrite fold_recordProgress_other by exact Hq.
    rewrite recordProgress_lookup, decide_True by reflexivity. reflexivity.
  - rewrite (IH _ Hnd Hin). rewrite recordProgress_lookup.
    assert (Project.id q <> Project.id p) as Hne.
    { intros E. apply Hq. rewrite E. apply in_map. exact Hin. }
    rewrite decide_False by exact Hne. reflexivity.
Qed.

End ProgressMap.

(** X19.  The progress map built from a list of projects with distinct
    ids has, for each project of the list, the parse of its
    [error_message] as entry, and no entry when the message is absent or
    does not parse; and it has no entry for an id that is not in the list. *)
Theorem X19_progress_map_entries ps :
  List.NoDup (List.map Project.id ps) ->
  (forall p, In p ps ->
     Dashboard.progressData ps !! Project.id p
     = match Project.error_message p with
       | Some m => JS.parseProgress m
       | None => None
       end)
  /\ (forall i, ~ In i (List.map Project.id ps) ->
        Dashboard.progressData ps !! i = None).
Proof.
  intros Hnd. split.
  - intros p Hin. unfold Dashboard.progressData.
    rewrite (fold_recordProgress_unique ps ∅ p Hnd Hin).
    rewrite lookup_empty.
    destruct (Project.error_message p) as [m|]; [|reflexivity].
    destruct (JS.parseProgress m); reflexivity.
  - intros i Hi. unfold Dashboard.progressData.
    rewrite fold_recordProgress_other by exact Hi. apply lookup_empty.
Qed.

Lemma X19_progress_map_entries_witness :
  let A := {| Project.id := 1; Project.name := JS.lit "A";
              Project.status := Project.processing;
              Project.status_message := None;
              Project.error_message :=
                Some (JS.lit "Progress 40%: Encoding") |} in
  let B := {| Project.id := 2; Project.name := JS.lit "B";
              Project.status := Project.failed;
              Project.status_message := None;
              Project.error_message := Some (JS.lit "CUDA out of memory") |} in
  Dashboard.progressData [A; B] !! 1 = Some (40, JS.lit "Encoding")
  /\ Dashboard.progressData [A; B] !! 2 = None.
Proof.
  intros A B.
  assert (List.NoDup (List.map Project.id [A; B])) as Hnd.
  { simpl. repeat constructor; simpl; intuition discriminate. }
  destruct (X19_progress_map_entries [A; B] Hnd) as [H _].
  split.
  - apply (H A). simpl. auto.
  - apply (H B). simpl. auto.
Defined.

(** X20.  After a tick of the dashboard the progress map is built anew from
    the results alone: nothing of the old map is kept.  In particular, when
    every request of the tick failed, the map is the one of the projects as
    the closure of the timer holds them. *)
Theorem X20_dashboard_tick_rebuilds_the_map ps rs s :
  length rs = length ps ->
  Forall (fun r => exists e, r = Promise.Rejected e) rs ->
  Dashboard.projectProgress (Dashboard.tickSettled ps rs s)
  = Dashboard.progressData ps.
Proof.
  intros Hlen Hall. unfold Dashboard.tickSettled. simpl. f_equal.
  revert ps Hlen. induction Hall as [|r rs [e ->] _ IH]; intros ps Hlen.
  - destruct ps; [reflexivity|discriminate].
  - destruct ps as [|p ps]; [discriminate|]. simpl. f_equal.
    apply IH. simpl in Hlen. lia.
Qed.

Lemma X20_dashboard_tick_rebuilds_the_map_witness :
  let A := {| Project.id := 1; Project.name := JS.lit "A";
              Project.status := Project.processing;
              Project.status_message := None;
              Project.error_message :=
                Some (JS.lit "Progress 40%: Encoding") |} in
  let e := {| Promise.response_status := None; Promise.detail := None;
              Promise.message := Some (JS.lit "Network Error") |} in
  let s := Dashboard.initialState projectSlice.initialState in
  Dashboard.projectProgress
    (Dashboard.tickSettled [A] [Promise.Rejected e] s) !! 1
  = Some (40, JS.lit "Encoding").
Proof.
  intros A e s.
  rewrite (X20_dashboard_tick_rebuilds_the_map [A] [Promise.Rejected e] s).
  - reflexivity.
  - reflexivity.
  - repeat constructor. exists e. reflexivity.
Defined.

(** ** Helpers of the project page *)

Ltac decide_comparisons :=
  repeat match goal with
         | |- context [?a <=? ?b] =>
             (rewrite (proj2 (N.leb_le a b)) by lia)
             || (rewrite (proj2 (N.leb_gt a b)) by lia)
         | |- context [?a <? ?b] =>
             (rewrite (proj2 (N.ltb_lt a b)) by lia)
             || (rewrite (proj2 (N.ltb_ge a b)) by lia)
         end.

Section ViewHelpers.

Import JS ProjectView.

(** The greedy [.*] reaches over any prefix without a line terminator. *)
Lemma afterUploads_prefix dir m rest :
  Forall (fun c => isLineTerminator c = false) dir ->
  afterUploads m = Some rest ->
  afterUploads (dir ++ m) = Some rest.
Proof.
  intros Hdir Hm. induction Hdir as [|c dir Hc _ IH]; [exact Hm|].
  change (afterUploads (c :: (dir ++ m)) = Some rest).
  cbn [afterUploads]. unfold isDot. rewrite Hc. cbn [negb].
  rewrite IH. reflexivity.
Qed.

Lemma afterUploads_last a b name :
  isSep a = true -> isSep b = true ->
  afterUploads (lit "uploads" ++ b :: name) = None ->
  afterUploads (a :: lit "uploads" ++ b :: name) = Some name.
Proof.
  intros Ha Hb Hno. cbn [afterUploads]. rewrite Hno.
  assert ((if isDot a then @None jsstring else None) = None) as ->
    by (destruct (isDot a); reflexivity).
  unfold uploadsHere. rewrite Ha, stripLiteral_app, Hb. reflexivity.
Qed.

End ViewHelpers.

(** X21.  [getFileUrl] gives the empty string for an absent or empty path.
    For a path made of a first part without line terminator, a slash or
    backslash, [uploads], a slash or backslash and a rest in which no
    further [uploads] segment follows, it gives the uploads address of the
    server followed by that rest; and for a non-empty path with no such
    segment it gives that address followed by the whole path. *)
Theorem X21_getFileUrl_keeps_what_follows_uploads :
  ProjectView.getFileUrl None = []
  /\ ProjectView.getFileUrl (Some []) = []
  /\ (forall dir a b name,
        Forall (fun c => JS.isLineTerminator c = false) dir ->
        ProjectView.isSep a = true -> ProjectView.isSep b = true ->
        ProjectView.afterUploads (JS.lit "uploads" ++ b :: name) = None ->
        ProjectView.getFileUrl
          (Some (dir ++ a :: JS.lit "uploads" ++ b :: name))
        = JS.lit "http://localhost:8000/uploads/" ++ name)
  /\ (forall path,
        path <> [] -> ProjectView.afterUploads path = None ->
        ProjectView.getFileUrl (Some path)
        = JS.lit "http://localhost:8000/uploads/" ++ path).
Proof.
  split; [reflexivity|]. split; [reflexivity|]. split.
  - intros dir a b name Hdir Ha Hb Hno.
    pose proof (afterUploads_prefix dir _ name Hdir
                  (afterUploads_last a b name Ha Hb Hno)) as H.
    unfold ProjectView.getFileUrl, ProjectView.relativePath.
    destruct (dir ++ a :: JS.lit "uploads" ++ b :: name) as [|c r] eqn:E.
    + destruct dir; discriminate E.
    + rewrite H. reflexivity.
  - intros path Hne Hno. unfold ProjectView.getFileUrl, ProjectView.relativePath.
    destruct path as [|c r]; [congruence|]. rewrite Hno. reflexivity.
Qed.

Lemma X21_getFileUrl_keeps_what_follows_uploads_witness :
  ProjectView.getFileUrl (Some (JS.lit "/srv/app/uploads/7/input.mp4"))
  = JS.lit "http://localhost:8000/uploads/7/input.mp4"
  /\ ProjectView.getFileUrl (Some (JS.lit "input.mp4"))
     = JS.lit "http://localhost:8000/uploads/input.mp4".
Proof.
  destruct X21_getFileUrl_keeps_what_follows_uploads as (_ & _ & H1 & H2).
  split.
  - apply (H1 (JS.lit "/srv/app") 47 47 (JS.lit "7/input.mp4")).
    + repeat constructor.
    + reflexivity.
    + reflexivity.
    + reflexivity.
  - apply (H2 (JS.lit "input.mp4")).
    + discriminate.
    + reflexivity.
Defined.

(** X22.  For a whole-number progress, [getCurrentStep] returns the step of
    the first range that holds it: a boundary value belongs to the earlier
    step, every value up to 100 has a step, and a value above 100 gets the
    fallback [Processing].  The entries [Reading Frames], [Processing
    Audio] and [Generating Lip Sync] lie inside the range of [Wav2Lip
    Inference], which comes first, and are never returned. *)
Theorem X22_getCurrentStep_ranges (n : N) :
  (ProjectView.getCurrentStep n).1
  = (if n <=? 5 then "Initializing"%string
     else if n <=? 15 then "Model Selection"%string
     else if n <=? 25 then "Video Optimization"%string
     else if n <=? 35 then "Audio Preparation"%string
     else if n <=? 90 then "Wav2Lip Inference"%string
     else if n <=? 100 then "Finalizing"%string
     else "Processing"%string)
  /\ (ProjectView.getCurrentStep n).1 <> "Reading Frames"%string
  /\ (ProjectView.getCurrentStep n).1 <> "Processing Audio"%string
  /\ (ProjectView.getCurrentStep n).1 <> "Generating Lip Sync"%string.
Proof.
  assert ((ProjectView.getCurrentStep n).1
          = (if n <=? 5 then "Initializing"%string
             else if n <=? 15 then "Model Selection"%string
             else if n <=? 25 then "Video Optimization"%string
             else if n <=? 35 then "Audio Preparation"%string
             else if n <=? 90 then "Wav2Lip Inference"%string
             else if n <=? 100 then "Finalizing"%string
             else "Processing"%string)) as E.
  { unfold ProjectView.getCurrentStep, ProjectView.processingSteps.
    cbn [List.find ProjectView.lo ProjectView.hi].
    assert (n <= 5 \/ 5 < n <= 15 \/ 15 < n <= 25 \/ 25 < n <= 35
            \/ 35 < n <= 90 \/ 90 < n <= 100 \/ 100 < n) as Hn by lia.
    destruct Hn as [H|[H|[H|[H|[H|[H|H]]]]]];
      decide_comparisons; reflexivity. }
  split; [exact E|]. rewrite E.
  repeat split;
    repeat (match goal with |- context [if ?b then _ else _] => destruct b end);
    discriminate.
Qed.

(** X23.  In the step list drawn under the progress bar, for a
    whole-number progress below 100 exactly one step is marked [Active] and
    every step marked [Complete] is not [Active]; from 100 on no step is
    [Active] and all six are [Complete]. *)
Theorem X23_one_active_step (progress : N) :
  (progress < 100 ->
   length (List.filter (ProjectView.isActive progress) ProjectView.stepList)
   = 1%nat)
  /\ (100 <= progress ->
      List.filter (ProjectView.isActive progress) ProjectView.stepList = []
      /\ forallb (ProjectView.isComplete progress) ProjectView.stepList = true)
  /\ (forall e, In e ProjectView.stepList ->
        ProjectView.isComplete progress e = true ->
        ProjectView.isActive progress e = false).
Proof.
  unfold ProjectView.stepList, ProjectView.isActive, ProjectView.isComplete.
  split; [|split].
  - intros Hp. cbn [List.filter fst snd].
    assert (progress < 10 \/ 10 <= progress < 20 \/ 20 <= progress < 35
            \/ 35 <= progress < 45 \/ 45 <= progress < 95
            \/ 95 <= progress < 100) as Hn by lia.
    destruct Hn as [H|[H|[H|[H|[H|H]]]]];
      decide_comparisons; reflexivity.
  - intros Hp. cbn [List.filter forallb fst snd].
    decide_comparisons. split; reflexivity.
  - intros e He Hc. cbn [In] in He.
    repeat (destruct He as [<-|He]; [cbn [fst snd] in *;
      apply N.leb_le in Hc; decide_comparisons;
      rewrite ?andb_false_r; reflexivity|]).
    destruct He.
Qed.

Lemma X23_one_active_step_witness :
  length (List.filter (ProjectView.isActive 45) ProjectView.stepList) = 1%nat.
Proof. apply (proj1 (X23_one_active_step 45)). reflexivity. Defined.

(** ** Starting the processing, refreshing *)

(** X24.  In the revision with the ref, when the start request succeeds
    the handler stores the status [processing], progress 0 and the starting
    text, starts no timer yet and queues one task; that task, run later,
    starts a timer whose callback holds the closure of the render in which
    the button was pressed, so the status that closure holds is the one
    stored before the handler ran, not [processing].  When the request
    fails, status, progress and step are left alone, nothing is queued and
    the error text is set. *)
Theorem X24_start_polls_with_the_closure_of_the_click i r s :
  let c := ProjectDetailRef.closureOf i s in
  let s1 := ProjectDetailRef.handleStartProcessingSettled c r s in
  ProjectDetailRef.intervals s1 = ProjectDetailRef.intervals s
  /\ ProjectDetailRef.processing (ProjectDetailRef.cells s1) = false
  /\ match r with
     | Promise.Fulfilled _ =>
         ProjectDetailRef.status (ProjectDetailRef.cells s1)
         = Some Project.processing
         /\ ProjectDetailRef.progress (ProjectDetailRef.cells s1) = 0
         /\ ProjectDetailRef.currentStep (ProjectDetailRef.cells s1)
            = JS.lit "Starting Wav2Lip processing..."
         /\ ProjectDetailRef.timeouts s1
            = ProjectDetailRef.timeouts s ++ [ProjectDetailRef.StartPolling c]
         /\ (let '(h, s2) := ProjectDetailRef.startPollingTask c s1 in
             ProjectDetailRef.intervals s2 !! h = Some c
             /\ ProjectDetailRef.pollingIntervalRef s2 = Some h
             /\ ProjectDetailRef.c_status c
                = ProjectDetailRef.status (ProjectDetailRef.cells s))
     | Promise.Rejected e =>
         ProjectDetailRef.status (ProjectDetailRef.cells s1)
         = ProjectDetailRef.status (ProjectDetailRef.cells s)
         /\ ProjectDetailRef.progress (ProjectDetailRef.cells s1)
            = ProjectDetailRef.progress (ProjectDetailRef.cells s)
         /\ ProjectDetailRef.currentStep (ProjectDetailRef.cells s1)
            = ProjectDetailRef.currentStep (ProjectDetailRef.cells s)
         /\ ProjectDetailRef.timeouts s1 = ProjectDetailRef.timeouts s
         /\ ProjectDetailRef.error (ProjectDetailRef.cells s1)
            = Some (JS.lit "Failed to start processing")
     end.
Proof.
  unfold ProjectDetailRef.handleStartProcessingSettled,
    ProjectDetailRef.startPollingTask.
  destruct r as [u|e]; ref_unfold; ref_frames.
  - split; [reflexivity|]. split; [reflexivity|].
    split; [reflexivity|]. split; [reflexivity|]. split; [reflexivity|].
    split; [reflexivity|]. split; [apply lookup_insert_eq|].
    split; reflexivity.
  - repeat split; reflexivity.
Qed.

(** X25.  In the revision with the handle cell, the click handler of the
    refresh button starts a timer exactly when the fetched project is
    processing and the handle of its render is empty; a failed request
    starts none and changes no state cell. *)
Theorem X25_refresh_starts_polling_only_without_handle c s :
  (forall p,
     ProjectDetail.intervals
       (ProjectDetail.refreshSettled c (Promise.Fulfilled p) s)
     = match Project.status p, ProjectDetail.c_pollingInterval c with
       | Project.processing, None =>
           <[ProjectDetail.nextHandle s := c]> (ProjectDetail.intervals s)
       | _, _ => ProjectDetail.intervals s
       end)
  /\ (forall e,
        ProjectDetail.intervals
          (ProjectDetail.refreshSettled c (Promise.Rejected e) s)
        = ProjectDetail.intervals s
        /\ ProjectDetail.cells
             (ProjectDetail.refreshSettled c (Promise.Rejected e) s)
           = ProjectDetail.cells s).
Proof.
  split.
  - intros p. unfold ProjectDetail.refreshSettled.
    destruct (Project.status p), (Project.status_message p) as [[|m sg]|],
      (ProjectDetail.c_pollingInterval c) as [h0|];
      try destruct (JS.parseProgress (m :: sg)) as [[n st]|];
      detail_unfold; detail_frames; reflexivity.
  - intros e. split; reflexivity.
Qed.

(** ** Failures other than 401 *)

(** X26.  A request that succeeds, or fails with anything but a response of
    status 401 (another status, or no response at all), leaves the storage
    and the location of the page exactly as they were; the result is passed
    on unchanged in every case. *)
Theorem X26_only_401_touches_the_session (A : Type) (net : Promise.Settled A)
  (b : api.Browser) :
  (api.request net b).2 = net
  /\ ((forall e, net = Promise.Rejected e ->
                 Promise.response_status e <> Some 401) ->
      (api.request net b).1 = b).
Proof.
  destruct net as [a|e]; simpl.
  - split; [reflexivity|]. intros _. reflexivity.
  - split; [reflexivity|]. intros H. unfold api.responseRejected.
    rewrite decide_False; [reflexivity|]. apply H. reflexivity.
Qed.

Lemma X26_only_401_touches_the_session_witness :
  let e := {| Promise.response_status := Some 503; Promise.detail := None;
              Promise.message := None |} in
  let b := {| api.localStorage := {["token" := JS.lit "abc"]};
              api.href := "/projects/7" |} in
  (api.request (A := Project.t) (Promise.Rejected e) b).1 = b.
Proof.
  intros e b.
  apply (proj2 (X26_only_401_touches_the_session Project.t
                  (Promise.Rejected e) b)).
  intros e' He'. injection He' as <-. discriminate.
Defined.
